(** * Personal assistant agent: request loop and Microsoft 365 client

    A shallow embedding of [ai_assistant_agent.py] ([PersonalAssistant]) and
    [m365_client.py] ([M365Client]).

    - Python values that flow through the program all come from decoded JSON
      or from literals, so they are modelled by one dynamically typed
      datatype [json]; an operation that Python rejects at run time raises
      the corresponding exception here as well.
    - A Python [str] is a [string] whose characters are code points
      U+0000..U+00FF.
    - Every network access goes through [requests]; the remote side is an
      oracle [net] that answers a request knowing the requests issued before
      it, either with a response or with a transport failure ([requests]
      raises).
    - Methods run in a state-and-exception monad.  A raised exception keeps
      the state reached so far: Python does not roll mutations back.
    - The state also holds two traces that the programs never read: the
      requests handed to [requests] and the client methods entered.
    - [json.loads], [json.dumps] and [str()] of compound values are taken as
      they are (section variables).  The token library [msal] is present
      through the results of its two acquisition calls, the environment
      and the command line through the values read from them, and the
      terminal through the lines typed and the lines printed. *)

From Stdlib Require Import ZArith List String Ascii Bool Lia DecimalString.
From Stdlib Require Import PrimFloat.
Import ListNotations.
Open Scope string_scope.
Open Scope Z_scope.

Set Implicit Arguments.
Set Warnings "-register-all,-inexact-float".

(** ** Strings *)

Module Str.

(** The double-quote character and the line feed. *)
Definition dq : string := String (ascii_of_nat 34) EmptyString.
Definition nl : string := String (ascii_of_nat 10) EmptyString.

(** [str.isspace] on one character, for code points below 256:
    U+0009..U+000D, U+001C..U+0020, U+0085 and U+00A0. *)
Definition isspace (c : ascii) : bool :=
  let n := nat_of_ascii c in
  ((9 <=? n) && (n <=? 13) || (28 <=? n) && (n <=? 32)
   || (n =? 133) || (n =? 160))%nat.

Fixpoint lstrip (s : string) : string :=
  match s with
  | String c s' => if isspace c then lstrip s' else s
  | EmptyString => EmptyString
  end.

Fixpoint rstrip (s : string) : string :=
  match s with
  | String c s' =>
      match rstrip s' with
      | EmptyString => if isspace c then EmptyString else String c EmptyString
      | r => String c r
      end
  | EmptyString => EmptyString
  end.

(** [s.strip()] *)
Definition strip (s : string) : string := rstrip (lstrip s).

(** [s.startswith(p)] *)
Definition startswith (s p : string) : bool := String.prefix p s.

(** [s.endswith(p)] *)
Definition endswith (s p : string) : bool :=
  ((String.length p <=? String.length s)%nat
   && String.eqb p (substring (String.length s - String.length p)
                              (String.length p) s)).

(** [p in s] for two strings. *)
Fixpoint contains (s p : string) : bool :=
  String.prefix p s
  || match s with
     | String _ s' => contains s' p
     | EmptyString => false
     end.

(** The text of [s] before the first occurrence of [sep] (all of [s] when
    there is none): [s.split(sep)[0]] for a non-empty [sep]. *)
Fixpoint before (sep s : string) : string :=
  if String.prefix sep s then EmptyString
  else match s with
       | String c s' => String c (before sep s')
       | EmptyString => EmptyString
       end.

(** [s[len(p):]] *)
Definition drop (n : nat) (s : string) : string :=
  substring n (String.length s - n) s.

(** [s[:n]] *)
Definition take (n : nat) (s : string) : string := substring 0 n s.

(** [str(z)] for an [int]. *)
Definition of_Z (z : Z) : string := NilZero.string_of_int (Z.to_int z).

(** The characters of a string, each as a one-character string. *)
Fixpoint chars (s : string) : list string :=
  match s with
  | String c s' => String c EmptyString :: chars s'
  | EmptyString => []
  end.

(** [str.lower] on one character, for code points below 256: the letters
    A..Z and U+00C0..U+00DE, the multiplication sign U+00D7 apart. *)
Definition lower_char (c : ascii) : ascii :=
  let n := nat_of_ascii c in
  if ((65 <=? n) && (n <=? 90)
      || (192 <=? n) && (n <=? 222) && negb (n =? 215))%nat
  then ascii_of_nat (n + 32)
  else c.

(** [s.lower()] *)
Fixpoint lower (s : string) : string :=
  match s with
  | String c s' => String (lower_char c) (lower s')
  | EmptyString => EmptyString
  end.

End Str.

(** ** Python values *)

Inductive json : Type :=
| JNull
| JBool (b : bool)
| JInt (z : Z)
| JFloat (f : float)
| JStr (s : string)
| JList (l : list json)
| JDict (kv : list (string * json)).

(** ** Exceptions *)

Inductive exn_class : Type :=
| KeyError | IndexError | TypeError | AttributeError
| JSONDecodeError
| RequestException        (* raised by [requests] on a transport failure *)
| PlainException.         (* [raise Exception(...)] *)

(** An exception object: its class and [str(e)]. *)
Record exn : Type := mk_exn { exn_kind : exn_class; exn_str : string }.

Inductive result (A : Type) : Type :=
| Return (a : A)
| Raise (e : exn).
Arguments Return {A} a.
Arguments Raise {A} e.

Definition rbind {A B} (r : result A) (k : A -> result B) : result B :=
  match r with
  | Return a => k a
  | Raise e => Raise e
  end.

Fixpoint rmap {A B} (f : A -> result B) (l : list A) : result (list B) :=
  match l with
  | [] => Return []
  | x :: l' =>
      rbind (f x) (fun y => rbind (rmap f l') (fun ys => Return (y :: ys)))
  end.

(** ** Dictionaries: insertion-ordered, keys unique *)

Module Dict.

Definition t := list (string * json).

Fixpoint get (d : t) (k : string) : option json :=
  match d with
  | [] => None
  | (k', v) :: d' => if String.eqb k' k then Some v else get d' k
  end.

Definition mem (d : t) (k : string) : bool :=
  match get d k with Some _ => true | None => false end.

(** [d[k] = v]: replaces in place, or appends a new key. *)
Fixpoint set (d : t) (k : string) (v : json) : t :=
  match d with
  | [] => [(k, v)]
  | (k', v') :: d' =>
      if String.eqb k' k then (k, v) :: d' else (k', v') :: set d' k v
  end.

End Dict.

(** ** Dynamically typed operations

    Each function is one Python operation applied to a value of unknown
    type; the exception messages are CPython's. *)

Definition type_name (v : json) : string :=
  match v with
  | JNull => "NoneType"
  | JBool _ => "bool"
  | JInt _ => "int"
  | JFloat _ => "float"
  | JStr _ => "str"
  | JList _ => "list"
  | JDict _ => "dict"
  end.

Definition attribute_error {A} (v : json) (attr : string) : result A :=
  Raise (mk_exn AttributeError
           ("'" ++ type_name v ++ "' object has no attribute '" ++ attr ++ "'")).

Definition type_error {A} (msg : string) : result A :=
  Raise (mk_exn TypeError msg).

Definition not_subscriptable {A} (v : json) : result A :=
  type_error ("'" ++ type_name v ++ "' object is not subscriptable").

(** [bool(v)] *)
Definition py_truthy (v : json) : bool :=
  match v with
  | JNull => false
  | JBool b => b
  | JInt z => negb (z =? 0)
  | JFloat f => negb (PrimFloat.eqb f 0%float)
  | JStr s => negb (String.eqb s "")
  | JList l => match l with [] => false | _ => true end
  | JDict d => match d with [] => false | _ => true end
  end.

(** [v == s] for a string literal [s] *)
Definition py_eq_str (v : json) (s : string) : bool :=
  match v with
  | JStr s' => String.eqb s' s
  | _ => false
  end.

(** [v.get(k, default)] *)
Definition py_get (v : json) (k : string) (default : json) : result json :=
  match v with
  | JDict d => Return (match Dict.get d k with Some x => x | None => default end)
  | _ => attribute_error v "get"
  end.

(** [v[k]] for a string literal [k] *)
Definition py_getitem (v : json) (k : string) : result json :=
  match v with
  | JDict d =>
      match Dict.get d k with
      | Some x => Return x
      | None => Raise (mk_exn KeyError ("'" ++ k ++ "'"))
      end
  | JList _ => type_error "list indices must be integers or slices, not str"
  | JStr _ => type_error "string indices must be integers, not 'str'"
  | _ => not_subscriptable v
  end.

(** [v[0]] *)
Definition py_getitem0 (v : json) : result json :=
  match v with
  | JList (x :: _) => Return x
  | JList [] => Raise (mk_exn IndexError "list index out of range")
  | JStr (String c _) => Return (JStr (String c ""))
  | JStr "" => Raise (mk_exn IndexError "string index out of range")
  | JDict _ => Raise (mk_exn KeyError "0")
  | _ => not_subscriptable v
  end.

(** [v[:n]] *)
Definition py_slice_to (n : nat) (v : json) : result json :=
  match v with
  | JStr s => Return (JStr (Str.take n s))
  | JList l => Return (JList (firstn n l))
  | JDict _ => type_error "unhashable type: 'slice'"
  | _ => not_subscriptable v
  end.

(** The elements [for x in v] visits. *)
Definition py_iter (v : json) : result (list json) :=
  match v with
  | JList l => Return l
  | JStr s => Return (map JStr (Str.chars s))
  | JDict d => Return (map (fun kv => JStr (fst kv)) d)
  | _ => type_error ("'" ++ type_name v ++ "' object is not iterable")
  end.

(** [len(v)] *)
Definition py_len (v : json) : result json :=
  match v with
  | JList l => Return (JInt (Z.of_nat (List.length l)))
  | JStr s => Return (JInt (Z.of_nat (String.length s)))
  | JDict d => Return (JInt (Z.of_nat (List.length d)))
  | _ => type_error ("object of type '" ++ type_name v ++ "' has no len()")
  end.

(** [v < 100] *)
Definition py_lt_100 (v : json) : result bool :=
  match v with
  | JInt z => Return (z <? 100)
  | JBool b => Return (Z.b2z b <? 100)
  | JFloat f => Return (PrimFloat.ltb f 100%float)
  | _ => type_error ("'<' not supported between instances of '"
                       ++ type_name v ++ "' and 'int'")
  end.

(** [k in v] for a string literal [k] *)
Definition py_contains (k : string) (v : json) : result bool :=
  match v with
  | JDict d => Return (Dict.mem d k)
  | JList l => Return (existsb (fun x => py_eq_str x k) l)
  | JStr s => Return (Str.contains s k)
  | _ => type_error ("argument of type '" ++ type_name v ++ "' is not iterable")
  end.

(** [v.strip()] *)
Definition py_strip (v : json) : result string :=
  match v with
  | JStr s => Return (Str.strip s)
  | _ => attribute_error v "strip"
  end.

(** [v.startswith(p)] *)
Definition py_startswith (v : json) (p : string) : result bool :=
  match v with
  | JStr s => Return (Str.startswith s p)
  | _ => attribute_error v "startswith"
  end.

(** ** HTTP through [requests] *)

Inductive http_method : Type := GET | POST | PATCH.

(** One call [requests.get/post/patch(url, headers=, params=, json=)]; an
    argument that is not passed is [None]. *)
Record request : Type := mk_request {
  req_method : http_method;
  req_url : string;
  req_headers : option json;
  req_params : option json;
  req_json : option json
}.

(** A response: [status_code], and the decoded body ([None] when the body is
    not JSON, so that [response.json()] raises).  The raw text of the body is
    not kept, so the message of that exception, which in Python tells where
    decoding stopped, is one fixed text here; only the class of the exception
    and the fact that it is raised are meant. *)
Record response : Type := mk_response {
  status_code : Z;
  body : option json
}.

Definition response_json (r : response) : result json :=
  match body r with
  | Some j => Return j
  | None => Raise (mk_exn JSONDecodeError "Expecting value: line 1 column 1 (char 0)")
  end.

(** ** Objects and state *)

(** [M365Client]: the bearer token [_authenticate] stored. *)
Record M365Client : Type := { token : string }.

(** The immutable fields of [PersonalAssistant]. *)
Record PersonalAssistant : Type := {
  ollama_url : string;
  ollama_model : string;
  m365 : M365Client
}.

(** An invocation of a method of [M365Client], with its arguments. *)
Inductive api_call : Type :=
| Call_get_emails (limit filter_str : json)
| Call_send_email (to subject body : json)
| Call_get_tasks (plan_id filter_str : json)
| Call_create_task (plan_id title description due_date : json).

(** What a turn can change: [self.conversation_history], and two traces that
    no code reads, kept for the specifications: the requests issued so far,
    and the client methods entered so far (ghost). *)
Record state : Type := mk_state {
  conversation_history : list json;
  sent : list request;
  api_calls : list api_call
}.

Definition M (A : Type) : Type := state -> result A * state.

Definition ret {A} (a : A) : M A := fun s => (Return a, s).

Definition raise {A} (e : exn) : M A := fun s => (Raise e, s).

Definition mbind {A B} (m : M A) (k : A -> M B) : M B :=
  fun s =>
    match m s with
    | (Return a, s') => k a s'
    | (Raise e, s') => (Raise e, s')
    end.

Definition lift {A} (r : result A) : M A := fun s => (r, s).

(** [try: m  except Exception as e: h e] *)
Definition try_except {A} (m : M A) (h : exn -> M A) : M A :=
  fun s =>
    match m s with
    | (Raise e, s') => h e s'
    | r => r
    end.

Declare Scope py_scope.
Delimit Scope py_scope with py.
Notation "x <- m ;; k" := (mbind m (fun x => k))
  (at level 100, m at next level, right associativity) : py_scope.
Notation "m ;; k" := (mbind m (fun _ => k))
  (at level 100, right associativity) : py_scope.
Notation "x <~ r ;; k" := (rbind r (fun x => k))
  (at level 100, r at next level, right associativity) : py_scope.
Open Scope py_scope.

(** The state after [self.conversation_history.append(m)]. *)
Definition push (m : json) (s : state) : state :=
  mk_state (conversation_history s ++ [m]) (sent s) (api_calls s).

(** The state after a request was handed to [requests]. *)
Definition log_request (r : request) (s : state) : state :=
  mk_state (conversation_history s) (sent s ++ [r]) (api_calls s).

(** [self.conversation_history.append(m)] *)
Definition append_history (m : json) : M unit :=
  fun s => (Return tt, push m s).

Definition get_history : M (list json) :=
  fun s => (Return (conversation_history s), s).

(** Ghost: a client method is entered. *)
Definition enter (c : api_call) : M unit :=
  fun s => (Return tt,
            mk_state (conversation_history s) (sent s) (api_calls s ++ [c])).

(** ** The two programs *)

Section Program.

(** Library functions that are used as they are: [json.loads] ([None] for
    [JSONDecodeError]), [json.dumps(_, indent=2)], and [str()] of a float,
    list or dict. *)
Variable json_loads : string -> option json.
Variable json_dumps : json -> string.
Variable py_repr : json -> string.

(** The remote side: the answer to a request, given the requests issued
    before it.  [inl msg] is a transport failure: [requests] raises. *)
Variable net : list request -> request -> string + response.

(** [str(v)], as an f-string placeholder formats [v]. *)
Definition py_str (v : json) : string :=
  match v with
  | JStr s => s
  | JInt z => Str.of_Z z
  | JBool true => "True"
  | JBool false => "False"
  | JNull => "None"
  | _ => py_repr v
  end.

(** [requests.get], [requests.post], [requests.patch]: the call is [r]. *)
Definition requests (r : request) : M response :=
  fun s =>
    match net (sent s) r with
    | inl msg => (Raise (mk_exn RequestException msg), log_request r s)
    | inr resp => (Return resp, log_request r s)
    end.

(** *** [m365_client.py] *)

Definition graph : string := "https://graph.microsoft.com/v1.0".

Definition error_result (msg : string) : json := JDict [("error", JStr msg)].

Definition _get_headers (self : M365Client) : json :=
  JDict [("Authorization", JStr ("Bearer " ++ token self));
         ("Content-Type", JStr "application/json")].

(** The [params] of [get_emails], after the [if filter_str:] block. *)
Definition emails_params (limit filter_str : json) : result Dict.t :=
  let params := [("$top", limit); ("$orderby", JStr "receivedDateTime DESC")] in
  if py_truthy filter_str then
    if py_eq_str filter_str "unread" then
      Return (Dict.set params "$filter" (JStr "isRead eq false"))
    else
      is_from <~ py_startswith filter_str "from:" ;;
      if is_from : bool then
        match filter_str with
        | JStr s =>
            (* filter_str.split("from:")[1].strip() *)
            let email := Str.strip (Str.before "from:" (Str.drop 5 s)) in
            Return (Dict.set params "$filter"
                      (JStr ("from/emailAddress/address eq '" ++ email ++ "'")))
        | _ => attribute_error filter_str "split"
        end
      else Return params
  else Return params.

(** One element of the ["emails"] list comprehension. *)
Definition email_summary (email : json) : result json :=
  subject <~ py_getitem email "subject" ;;
  sender <~ py_getitem email "from" ;;
  sender <~ py_getitem sender "emailAddress" ;;
  sender <~ py_getitem sender "address" ;;
  received <~ py_getitem email "receivedDateTime" ;;
  preview <~ py_get email "bodyPreview" (JStr "") ;;
  preview <~ py_slice_to 100 preview ;;
  is_read <~ py_getitem email "isRead" ;;
  Return (JDict [("subject", subject); ("from", sender); ("received", received);
                 ("preview", preview); ("is_read", is_read)]).

Definition emails_request (self : M365Client) (params : Dict.t) : request :=
  mk_request GET (graph ++ "/me/messages") (Some (_get_headers self))
             (Some (JDict params)) None.

Definition get_emails (self : M365Client) (limit filter_str : json) : M json :=
  enter (Call_get_emails limit filter_str) ;;
  params <- lift (emails_params limit filter_str) ;;
  response <- requests (emails_request self params) ;;
  if status_code response =? 200 then
    lift (data <~ response_json response ;;
          emails <~ py_get data "value" (JList []) ;;
          count <~ py_len emails ;;
          items <~ py_iter emails ;;
          summaries <~ rmap email_summary items ;;
          Return (JDict [("count", count); ("emails", JList summaries)]))
  else
    ret (error_result ("Failed to retrieve emails: "
                         ++ Str.of_Z (status_code response))).

Definition send_request (self : M365Client) (to subject body : json) : request :=
  let url := graph ++ "/me/sendMail" in
  let email_data :=
    JDict [("message",
            JDict [("subject", subject);
                   ("body", JDict [("contentType", JStr "Text"); ("content", body)]);
                   ("toRecipients",
                    JList [JDict [("emailAddress", JDict [("address", to)])]])])] in
  mk_request POST url (Some (_get_headers self)) None (Some email_data).

Definition send_email (self : M365Client) (to subject body : json) : M json :=
  enter (Call_send_email to subject body) ;;
  response <- requests (send_request self to subject body) ;;
  if status_code response =? 202 then
    ret (JDict [("status", JStr "success");
                ("message", JStr ("Email sent to " ++ py_str to))])
  else
    ret (error_result ("Failed to send email: "
                         ++ Str.of_Z (status_code response))).

(** [[t for t in tasks if t['percentComplete'] < 100]] over the elements. *)
Fixpoint incomplete (tasks : list json) : result (list json) :=
  match tasks with
  | [] => Return []
  | t :: rest =>
      pc <~ py_getitem t "percentComplete" ;;
      keep <~ py_lt_100 pc ;;
      kept <~ incomplete rest ;;
      Return (if keep : bool then t :: kept else kept)
  end.

(** One element of the ["tasks"] list comprehension. *)
Definition task_summary (task : json) : result json :=
  id <~ py_getitem task "id" ;;
  title <~ py_getitem task "title" ;;
  percent <~ py_getitem task "percentComplete" ;;
  due <~ py_get task "dueDateTime" JNull ;;
  priority <~ py_get task "priority" (JInt 5) ;;
  Return (JDict [("id", id); ("title", title); ("percent_complete", percent);
                 ("due_date", due); ("priority", priority)]).

(** The value [get_tasks] returns for the (filtered) [tasks]. *)
Definition tasks_result (plan_id tasks : json) : result json :=
  count <~ py_len tasks ;;
  items <~ py_iter tasks ;;
  summaries <~ rmap task_summary items ;;
  Return (JDict [("count", count); ("plan_id", plan_id);
                 ("tasks", JList summaries)]).

(** The request for the tasks of a plan. *)
Definition tasks_request (self : M365Client) (plan_id : json) : request :=
  mk_request GET (graph ++ "/planner/plans/" ++ py_str plan_id ++ "/tasks")
             (Some (_get_headers self)) None None.

Definition plans_request (self : M365Client) : request :=
  mk_request GET (graph ++ "/me/planner/plans") (Some (_get_headers self)) None None.

(** [get_tasks] once the plan is known: from [# Get tasks for the plan]. *)
Definition tasks_of_plan (self : M365Client) (plan_id filter_str : json) : M json :=
  response <- requests (tasks_request self plan_id) ;;
  if status_code response =? 200 then
    lift (data <~ response_json response ;;
          tasks <~ py_get data "value" (JList []) ;;
          (* Apply filter *)
          tasks <~ (if py_eq_str filter_str "incomplete" then
                      items <~ py_iter tasks ;;
                      kept <~ incomplete items ;;
                      Return (JList kept)
                    else Return tasks) ;;
          tasks_result plan_id tasks)
  else
    ret (error_result ("Failed to retrieve tasks: "
                         ++ Str.of_Z (status_code response))).

Definition get_tasks (self : M365Client) (plan_id filter_str : json) : M json :=
  enter (Call_get_tasks plan_id filter_str) ;;
  (* First, get user's plans if no plan_id provided; [inl] is an early return *)
  resolved <-
    (if negb (py_truthy plan_id) then
       response <- requests (plans_request self) ;;
       if negb (status_code response =? 200) then
         ret (inl (error_result "Failed to retrieve plans"))
       else
         plans <- lift (data <~ response_json response ;;
                        py_get data "value" (JList [])) ;;
         if negb (py_truthy plans) then
           ret (inl (error_result "No plans found"))
         else
           first <- lift (plan <~ py_getitem0 plans ;; py_getitem plan "id") ;;
           ret (inr first)
     else ret (inr plan_id)) ;;
  match resolved with
  | inl early => ret early
  | inr plan_id => tasks_of_plan self plan_id filter_str
  end.

Definition buckets_request (self : M365Client) (plan_id : json) : request :=
  mk_request GET (graph ++ "/planner/plans/" ++ py_str plan_id ++ "/buckets")
             (Some (_get_headers self)) None None.

(** The request that creates the task. *)
Definition create_request (self : M365Client)
    (plan_id bucket_id title due_date : json) : request :=
  let url := graph ++ "/planner/tasks" in
  let task_data :=
    [("planId", plan_id); ("bucketId", bucket_id); ("title", title)] in
  let task_data :=
    if py_truthy due_date
    then Dict.set task_data "dueDateTime" (JStr (py_str due_date ++ "T00:00:00Z"))
    else task_data in
  mk_request POST url (Some (_get_headers self)) None (Some (JDict task_data)).

(** The request that attaches the description to the task [id]. *)
Definition details_request (self : M365Client) (id description : json) : request :=
  let details_url := graph ++ "/planner/tasks/" ++ py_str id ++ "/details" in
  let details_data := JDict [("description", description)] in
  mk_request PATCH details_url (Some (_get_headers self)) None (Some details_data).

Definition create_task (self : M365Client)
    (plan_id title description due_date : json) : M json :=
  enter (Call_create_task plan_id title description due_date) ;;
  (* First, get a bucket from the plan *)
  response <- requests (buckets_request self plan_id) ;;
  if negb (status_code response =? 200) then
    ret (error_result "Failed to retrieve buckets")
  else
    buckets <- lift (data <~ response_json response ;;
                     py_get data "value" (JList [])) ;;
    if negb (py_truthy buckets) then
      ret (error_result "No buckets found in plan")
    else
      bucket_id <- lift (bucket <~ py_getitem0 buckets ;; py_getitem bucket "id") ;;
      (* Create task *)
      response <- requests (create_request self plan_id bucket_id title due_date) ;;
      if status_code response =? 201 then
        task <- lift (response_json response) ;;
        (* Add description if provided *)
        (if py_truthy description then
           id <- lift (py_getitem task "id") ;;
           _ <- requests (details_request self id description) ;;
           ret tt
         else ret tt) ;;
        lift (id <~ py_getitem task "id" ;;
              title <~ py_getitem task "title" ;;
              Return (JDict [("status", JStr "success"); ("task_id", id);
                             ("title", title)]))
      else
        ret (error_result ("Failed to create task: "
                             ++ Str.of_Z (status_code response))).

(** *** [ai_assistant_agent.py] *)

(** An entry of [self.tools]. *)
Record ToolDescriptor : Type := {
  name : string;
  description : string;
  parameters : list (string * string)
}.

Definition tools : list ToolDescriptor :=
  [ {| name := "get_emails";
       description := "Retrieve emails from Outlook inbox. Returns list of recent emails.";
       parameters :=
         [("limit", "Number of emails to retrieve (default 10)");
          ("filter", "Filter criteria: 'unread' for unread emails, 'from:email@example.com' for specific sender")] |};
    {| name := "send_email";
       description := "Send an email via Outlook";
       parameters :=
         [("to", "Recipient email address (required)");
          ("subject", "Email subject (required)");
          ("body", "Email body content (required)")] |};
    {| name := "get_tasks";
       description := "Retrieve tasks from Microsoft Planner";
       parameters :=
         [("plan_id", "Planner plan ID (optional, will use first plan if not provided)");
          ("filter", "Filter: 'incomplete' for incomplete tasks, 'due_soon' for tasks due soon")] |};
    {| name := "create_task";
       description := "Create a new task in Microsoft Planner";
       parameters :=
         [("plan_id", "Planner plan ID (required)");
          ("title", "Task title (required)");
          ("description", "Task description (optional)");
          ("due_date", "Due date in YYYY-MM-DD format (optional)")] |} ].

(** A string literal in double quotes. *)
Definition quoted (s : string) : string := Str.dq ++ s ++ Str.dq.

Definition _create_system_prompt : string :=
  let tools_desc :=
    String.concat Str.nl
      (map (fun tool => "- " ++ name tool ++ ": " ++ description tool) tools) in
  String.concat Str.nl
    [ "You are a helpful personal assistant with access to Microsoft 365.";
      "You can help manage emails and Planner tasks.";
      "";
      "Available tools:";
      tools_desc;
      "";
      "When you need to use a tool, respond ONLY with a JSON object in this format:";
      "{" ++ quoted "tool" ++ ": " ++ quoted "tool_name" ++ ", "
          ++ quoted "parameters" ++ ": {" ++ quoted "param1" ++ ": "
          ++ quoted "value1" ++ ", " ++ quoted "param2" ++ ": "
          ++ quoted "value2" ++ "}}";
      "";
      "If you don't need a tool, respond normally in a friendly, concise way.";
      "Format information clearly for CLI display.";
      "";
      "Examples:";
      "User: " ++ quoted "Show me my emails";
      "Assistant: {" ++ quoted "tool" ++ ": " ++ quoted "get_emails" ++ ", "
          ++ quoted "parameters" ++ ": {" ++ quoted "limit" ++ ": 10}}";
      "";
      "User: " ++ quoted "What's the weather?";
      "Assistant: I can help you with emails and tasks from Microsoft 365, but I don't have access to weather information.";
      "" ].

(** A message [{"role": role, "content": content}]. *)
Definition message (role : string) (content : json) : json :=
  JDict [("role", JStr role); ("content", content)].

Definition system_message : json :=
  message "system" (JStr _create_system_prompt).

(** The request [_call_ollama] posts for [messages]. *)
Definition chat_request (self : PersonalAssistant) (messages : json) : request :=
  let url := ollama_url self ++ "/api/chat" in
  let payload :=
    JDict [("model", JStr (ollama_model self));
           ("messages", messages);
           ("stream", JBool false);
           ("options", JDict [("temperature", JFloat 0.7%float)])] in
  mk_request POST url None None (Some payload).

Definition _call_ollama (self : PersonalAssistant) (messages : json) : M json :=
  response <- requests (chat_request self messages) ;;
  if status_code response =? 200 then
    lift (data <~ response_json response ;;
          msg <~ py_getitem data "message" ;;
          py_getitem msg "content")
  else
    raise (mk_exn PlainException
             ("Ollama API error: " ++ Str.of_Z (status_code response))).

Definition _is_tool_call (text : json) : result bool :=
  text <~ py_strip text ;;
  if Str.startswith text "{" && Str.endswith text "}" then
    match json_loads text with
    | Some data =>
        match py_contains "tool" data with
        | Return b => Return b
        | Raise _ => Return false
        end
    | None => Return false
    end
  else Return false.

Definition execute_tool (self : PersonalAssistant)
    (function_name arguments : json) : M json :=
  try_except
    (if py_eq_str function_name "get_emails" then
       limit <- lift (py_get arguments "limit" (JInt 10)) ;;
       filter_str <- lift (py_get arguments "filter" JNull) ;;
       get_emails (m365 self) limit filter_str
     else if py_eq_str function_name "send_email" then
       to <- lift (py_getitem arguments "to") ;;
       subject <- lift (py_getitem arguments "subject") ;;
       body <- lift (py_getitem arguments "body") ;;
       send_email (m365 self) to subject body
     else if py_eq_str function_name "get_tasks" then
       plan_id <- lift (py_get arguments "plan_id" JNull) ;;
       filter_str <- lift (py_get arguments "filter" JNull) ;;
       get_tasks (m365 self) plan_id filter_str
     else if py_eq_str function_name "create_task" then
       plan_id <- lift (py_getitem arguments "plan_id") ;;
       title <- lift (py_getitem arguments "title") ;;
       description <- lift (py_get arguments "description" JNull) ;;
       due_date <- lift (py_get arguments "due_date" JNull) ;;
       create_task (m365 self) plan_id title description due_date
     else
       ret (error_result ("Unknown function: " ++ py_str function_name)))
    (fun e => ret (error_result (exn_str e))).

(** [json.loads(response_text)] *)
Definition loads (text : json) : result json :=
  match text with
  | JStr s =>
      match json_loads s with
      | Some v => Return v
      | None => Raise (mk_exn JSONDecodeError "Expecting value: line 1 column 1 (char 0)")
      end
  | _ => type_error ("the JSON object must be str, bytes or bytearray, not "
                       ++ type_name text)
  end.

Definition tool_marker (tool_name : json) : json :=
  message "assistant" (JStr ("[Used tool: " ++ py_str tool_name ++ "]")).

Definition tool_result_message (tool_result : json) : json :=
  message "user"
    (JStr ("Tool result: " ++ json_dumps tool_result ++ Str.nl ++ Str.nl
           ++ "Please summarize this information in a clear, friendly way for the user.")).

(** The body of the [try] in [process_request]; [Some] is its [return]. *)
Definition tool_round_trip (self : PersonalAssistant) (response_text : json)
    : M (option json) :=
  tool_call <- lift (loads response_text) ;;
  tool_name <- lift (py_get tool_call "tool" JNull) ;;
  parameters <- lift (py_get tool_call "parameters" (JDict [])) ;;
  (* Execute tool *)
  tool_result <- execute_tool self tool_name parameters ;;
  (* Add tool result to conversation *)
  append_history (tool_marker tool_name) ;;
  append_history (tool_result_message tool_result) ;;
  (* Get final response *)
  history <- get_history ;;
  final_response <- _call_ollama self (JList (system_message :: history)) ;;
  append_history (message "assistant" final_response) ;;
  ret (Some final_response).

Definition process_request (self : PersonalAssistant) (user_input : string)
    : M json :=
  append_history (message "user" (JStr user_input)) ;;
  history <- get_history ;;
  (* Get initial response from LLM *)
  response_text <- _call_ollama self (JList (system_message :: history)) ;;
  (* Check if response is a tool call *)
  is_call <- lift (_is_tool_call response_text) ;;
  returned <-
    (if is_call : bool then
       try_except (tool_round_trip self response_text)
         (fun e =>
            match exn_kind e with
            | JSONDecodeError => ret None   (* not a valid tool call *)
            | _ => raise e
            end)
     else ret None) ;;
  match returned with
  | Some final_response => ret final_response
  | None =>
      (* Normal response (no tool needed) *)
      append_history (message "assistant" response_text) ;;
      ret response_text
  end.

(** *** Construction: [M365Client.__init__] and [PersonalAssistant.__init__] *)

(** [M365Client._authenticate], given what [acquire_token_silent] returns
    and what [acquire_token_for_client] returns if it is called.  The value
    returned is the one stored in [self.token]. *)
Definition _authenticate (silent for_client : json) : result json :=
  let result := if negb (py_truthy silent) then for_client else silent in
  has_token <~ py_contains "access_token" result ;;
  if has_token : bool then py_getitem result "access_token"
  else
    description <~ py_get result "error_description" JNull ;;
    Raise (mk_exn PlainException
             ("Authentication failed: " ++ py_str description)).

(** [M365Client()], once the token library's application object is built.
    The token is only ever read by [_get_headers], in
    [f"Bearer {self.token}"], so the client keeps [str(token)]. *)
Definition M365Client__init__ (silent for_client : json) : result M365Client :=
  access_token <~ _authenticate silent for_client ;;
  Return {| token := py_str access_token |}.

(** What the programs print.  Each constructor is one [print] of the
    source, with the values it formats; its fixed text (an emoji and a
    caption) is not spelled out. *)
Inductive printed : Type :=
| CannotConnect (url : string)          (* Warning: Cannot connect to Ollama at {url} *)
| ConnectionFailed (e : string)         (* Warning: Ollama connection failed: {e} *)
| MissingVariables (missing : string)   (* Missing environment variables: {', '.join(missing)}, and the .env hint *)
| Initializing (model : string)         (* Initializing with Ollama model: {model} *)
| Banner                                (* the title and the list of commands *)
| Goodbye                               (* the farewell after exit or quit *)
| GoodbyeInterrupted                    (* the farewell of the KeyboardInterrupt handler *)
| HistoryCleared
| Thinking
| Answer (response : string)            (* Assistant: {response} *)
| ErrorLine (e : string).               (* Error: {str(e)} *)

(** The request of the connection test. *)
Definition tags_request (url : string) : request :=
  mk_request GET (url ++ "/api/tags") None None None.

(** [self.conversation_history = history] *)
Definition set_history (history : list json) : M unit :=
  fun s => (Return tt, mk_state history (sent s) (api_calls s)).

(** [PersonalAssistant(ollama_model, ollama_url)]: the object and what the
    constructor printed. *)
Definition PersonalAssistant__init__ (model url : string)
    (silent for_client : json) : M (PersonalAssistant * list printed) :=
  client <- lift (M365Client__init__ silent for_client) ;;
  set_history [] ;;
  (* Test Ollama connection *)
  warnings <-
    try_except
      (response <- requests (tags_request url) ;;
       ret (if negb (status_code response =? 200)
            then [CannotConnect url] else []))
      (fun e => ret [ConnectionFailed (exn_str e)]) ;;
  ret ({| ollama_url := url; ollama_model := model; m365 := client |}, warnings).

(** *** [ai_assistant_main.py] *)

Definition required_vars : list string :=
  ["CLIENT_ID"; "CLIENT_SECRET"; "TENANT_ID"].

(** [[var for var in required_vars if not os.getenv(var)]] *)
Definition missing_vars (getenv : string -> option string) : list string :=
  filter (fun var => match getenv var with
                     | Some value => String.eqb value ""
                     | None => true
                     end)
         required_vars.

Inductive control : Type := Break | Continue.

(** What [input()] does in a round: it returns the line typed, or the user
    interrupts it and [KeyboardInterrupt] is raised. *)
Inductive typed : Type :=
| Typed (line : string)
| Interrupted.

(** The body of the [try] of the loop of [main] on the line [input()]
    returned, with the [except Exception] handler. *)
Definition main_step (assistant : PersonalAssistant) (line : string)
    : state -> (control * list printed) * state :=
  fun s =>
    let user_input := Str.strip line in
    if existsb (String.eqb (Str.lower user_input)) ["exit"; "quit"] then
      ((Break, [Goodbye]), s)
    else if String.eqb (Str.lower user_input) "clear" then
      ((Continue, [HistoryCleared]), mk_state [] (sent s) (api_calls s))
    else if String.eqb user_input "" then
      ((Continue, []), s)
    else
      match process_request assistant user_input s with
      | (Return response, s') =>
          ((Continue, [Thinking; Answer (py_str response)]), s')
      | (Raise e, s') =>
          ((Continue, [Thinking; ErrorLine (exn_str e)]), s')
      end.

(** One round of the [while True] loop of [main]: the [try] and its two
    handlers.  [except KeyboardInterrupt] prints a farewell and leaves the
    loop.  The interrupt is the one that reaches [input()]; one delivered
    while a turn is under way leaves the loop in the same way, from the state
    the turn had reached, and has no counterpart here. *)
Definition main_round (assistant : PersonalAssistant) (input : typed)
    : state -> (control * list printed) * state :=
  fun s =>
    match input with
    | Typed line => main_step assistant line s
    | Interrupted => ((Break, [GoodbyeInterrupted]), s)
    end.

(** The loop on what the user did so far, round by round. *)
Fixpoint main_loop (assistant : PersonalAssistant) (inputs : list typed)
    (s : state) : list printed * state :=
  match inputs with
  | [] => ([], s)
  | input :: rest =>
      match main_round assistant input s with
      | ((Break, out), s') => (out, s')
      | ((Continue, out), s') =>
          let (outs, s'') := main_loop assistant rest s' in
          ((out ++ outs)%list, s'')
      end
  end.

(** [main()], for the environment [getenv], the parsed arguments [model]
    and [url], the answers of the token library and what the user did at
    each prompt: what was printed, and how [main] ended (an exception of the
    constructor is not caught). *)
Definition main (getenv : string -> option string) (model url : string)
    (silent for_client : json) (inputs : list typed)
    : state -> (list printed * result unit) * state :=
  fun s =>
    let missing := missing_vars getenv in
    match missing with
    | _ :: _ => (([MissingVariables (String.concat ", " missing)], Return tt), s)
    | [] =>
        match PersonalAssistant__init__ model url silent for_client s with
        | (Raise e, s') => (([Initializing model], Raise e), s')
        | (Return (assistant, warnings), s') =>
            let (outs, s'') := main_loop assistant inputs s' in
            ((Initializing model :: warnings ++ Banner :: outs, Return tt)%list,
             s'')
        end
    end.

(** ** Specification vocabulary *)

Local Open Scope list_scope.

Definition user_message (user_input : string) : json :=
  message "user" (JStr user_input).

(** The first half of a turn: the user message is appended, then the
    completion service is called with the system message and the history. *)
Definition first_completion (self : PersonalAssistant) (user_input : string)
    (s : state) : result json * state :=
  let s0 := push (user_message user_input) s in
  _call_ollama self (JList (system_message :: conversation_history s0)) s0.

(** [client_step hdr s s']: from [s] to [s'] the history and the ghost trace
    are unchanged and every request issued in between carries the headers
    [hdr]. *)
Definition client_step (hdr : json) (s s' : state) : Prop :=
  conversation_history s' = conversation_history s /\
  api_calls s' = api_calls s /\
  exists new, sent s' = (sent s ++ new)%list /\
              Forall (fun r => req_headers r = Some hdr) new.

(** A computation that only issues requests with the headers [hdr]. *)
Definition preserves {A} (hdr : json) (m : M A) : Prop :=
  forall s r s', m s = (r, s') -> client_step hdr s s'.

(** The state after the client method [c] was entered. *)
Definition log_call (c : api_call) (s : state) : state :=
  mk_state (conversation_history s) (sent s) (api_calls s ++ [c]).

(** After a client method was entered, it only talks to the remote API. *)
Definition client_method {A} (hdr : json) (c : api_call) (m : M A) : Prop :=
  forall s r s', m s = (r, s') -> client_step hdr (log_call c s) s'.

(** What the [try] block of [process_request] reads off the response. *)
Definition parse_directive (response_text : json) : result (json * json) :=
  tool_call <~ loads response_text ;;
  tool_name <~ py_get tool_call "tool" JNull ;;
  parameters <~ py_get tool_call "parameters" (JDict []) ;;
  Return (tool_name, parameters).

(** The state in which the second completion call is made. *)
Definition with_tool_messages (tool_name tool_result : json) (s : state) : state :=
  push (tool_result_message tool_result) (push (tool_marker tool_name) s).

(** An optional argument of a tool call. *)
Definition argument (parameters : Dict.t) (k : string) (default : json) : json :=
  match Dict.get parameters k with Some v => v | None => default end.

(** The method call a directive stands for, when its parameters are a
    mapping that supplies the required arguments of the operation:
    [to], [subject] and [body] to send a mail, [plan_id] and [title] to
    create a task; every other argument is optional. *)
Definition corresponding_call (tool_name : string) (parameters : json)
    : option api_call :=
  match parameters with
  | JDict p =>
      if String.eqb tool_name "get_emails" then
        Some (Call_get_emails (argument p "limit" (JInt 10))
                              (argument p "filter" JNull))
      else if String.eqb tool_name "send_email" then
        match Dict.get p "to", Dict.get p "subject", Dict.get p "body" with
        | Some to, Some subject, Some body =>
            Some (Call_send_email to subject body)
        | _, _, _ => None
        end
      else if String.eqb tool_name "get_tasks" then
        Some (Call_get_tasks (argument p "plan_id" JNull)
                             (argument p "filter" JNull))
      else if String.eqb tool_name "create_task" then
        match Dict.get p "plan_id", Dict.get p "title" with
        | Some plan_id, Some title =>
            Some (Call_create_task plan_id title
                    (argument p "description" JNull)
                    (argument p "due_date" JNull))
        | _, _ => None
        end
      else None
  | _ => None
  end.

(** Calling a method of the client. *)
Definition invoke (self : M365Client) (c : api_call) : M json :=
  match c with
  | Call_get_emails limit filter_str => get_emails self limit filter_str
  | Call_send_email to subject body => send_email self to subject body
  | Call_get_tasks plan_id filter_str => get_tasks self plan_id filter_str
  | Call_create_task plan_id title description due_date =>
      create_task self plan_id title description due_date
  end.

(** The handler of [execute_tool]: [return {"error": str(e)}]. *)
Definition as_error_record (e : exn) : M json := ret (error_result (exn_str e)).

(** The response, trimmed, is written between braces. *)
Definition brace_shaped (R : string) : bool :=
  Str.startswith (Str.strip R) "{" && Str.endswith (Str.strip R) "}".

(** [remote_step hdr s s']: only requests with the headers [hdr] were issued
    (and client methods entered); the history is the same. *)
Definition remote_step (hdr : json) (s s' : state) : Prop :=
  conversation_history s' = conversation_history s /\
  exists new, sent s' = sent s ++ new /\
              Forall (fun r => req_headers r = Some hdr) new.

(** A computation that only talks to the remote API. *)
Definition remote {A} (hdr : json) (m : M A) : Prop :=
  forall s r s', m s = (r, s') -> remote_step hdr s s'.

(** The four tool names [execute_tool] knows. *)
Definition supported (tool_name : string) : bool :=
  String.eqb tool_name "get_emails" || String.eqb tool_name "send_email"
  || String.eqb tool_name "get_tasks" || String.eqb tool_name "create_task".

(** What follows the last completion call of a turn in the history: nothing
    (the turn ended with an exception) or the assistant's answer. *)
Definition answer_only (tail : list json) : Prop :=
  tail = [] \/ exists c, tail = [message "assistant" c].

(** The request of a completion call made when the history is [h]. *)
Definition completion (self : PersonalAssistant) (h : list json) : request :=
  chat_request self (JList (system_message :: h)).

(** The ["role"] of a message. *)
Definition role_of (m : json) : option json :=
  match m with
  | JDict d => Dict.get d "role"
  | _ => None
  end.

(** A message of the user or of the assistant. *)
Definition speaker (m : json) : Prop :=
  role_of m = Some (JStr "user") \/ role_of m = Some (JStr "assistant").

(** The two shapes of a turn. *)
Definition plain_shape (self : PersonalAssistant) (u : string) (s s' : state)
    : Prop :=
  let h1 := conversation_history s ++ [user_message u] in
  exists tail,
    sent s' = sent s ++ [completion self h1] /\
    conversation_history s' = h1 ++ tail /\
    answer_only tail.

Definition tool_shape (self : PersonalAssistant) (u : string) (s s' : state)
    : Prop :=
  let h1 := conversation_history s ++ [user_message u] in
  exists api tool_name tool_result tail,
    let h2 := h1 ++ [tool_marker tool_name; tool_result_message tool_result] in
    sent s' = sent s ++ completion self h1 :: api ++ [completion self h2] /\
    Forall (fun r => req_headers r = Some (_get_headers (m365 self))) api /\
    conversation_history s' = h2 ++ tail /\
    answer_only tail.

(** The tasks that the ["incomplete"] filter keeps. *)
Definition below_100 (t : json) : bool :=
  match py_getitem t "percentComplete" with
  | Return pc =>
      match py_lt_100 pc with
      | Return b => b
      | Raise _ => false
      end
  | Raise _ => false
  end.

(** A task whose [percentComplete] is there and is a number. *)
Definition has_percent (t : json) : Prop :=
  exists pc b, py_getitem t "percentComplete" = Return pc /\
               py_lt_100 pc = Return b.

(** The status that counts as success for a request of the method call
    [c]; the description PATCH has none. *)
Definition expected_status (c : api_call) (m : http_method) : option Z :=
  match c, m with
  | Call_get_emails _ _, GET => Some 200
  | Call_send_email _ _ _, POST => Some 202
  | Call_get_tasks _ _, GET => Some 200
  | Call_create_task _ _ _ _, GET => Some 200
  | Call_create_task _ _ _ _, POST => Some 201
  | _, _ => None
  end.

(** What the first failing request of a method call [c] does to the call:
    [res] is the outcome of the call, [post] the requests issued later. *)
Definition stops_on_failure (c : api_call) (res : result json)
    (before : list request) (r : request) (post : list request) : Prop :=
  match net before r with
  | inl msg => post = [] /\ res = Raise (mk_exn RequestException msg)
  | inr resp =>
      forall code, expected_status c (req_method r) = Some code ->
                   status_code resp <> code ->
                   post = [] /\ exists msg, res = Return (error_result msg)
  end.

(** ** Test doubles

    A scripted remote side, a decoder given by a table, and one session. *)

(** Answers the n-th request of a session with the n-th scripted answer. *)
Definition scripted (answers : list (string + response))
    : list request -> request -> string + response :=
  fun before _ => nth (List.length before) answers (inl "no answer scripted").

Definition table_loads (table : list (string * json)) (text : string)
    : option json :=
  Dict.get table text.

Definition dumps_stub (v : json) : string :=
  match v with
  | JDict (("error", JStr msg) :: _) => "{error: " ++ msg ++ "}"
  | _ => "{...}"
  end.

Definition repr_stub (v : json) : string := "...".

Definition ok (data : json) : string + response :=
  inr (mk_response 200 (Some data)).

(** The completion service answers [text]. *)
Definition chat_answer (text : string) : string + response :=
  ok (JDict [("message",
              JDict [("role", JStr "assistant"); ("content", JStr text)])]).

Definition assistant0 : PersonalAssistant :=
  {| ollama_url := "http://localhost:11434";
     ollama_model := "llama3.1";
     m365 := {| token := "t0" |} |}.

Definition fresh : state := mk_state [] [] [].

Definition emails_directive : string :=
  "{" ++ quoted "tool" ++ ": " ++ quoted "get_emails" ++ ", "
      ++ quoted "parameters" ++ ": {" ++ quoted "limit" ++ ": 5}}".

Definition foo_directive : string :=
  "{" ++ quoted "tool" ++ ": " ++ quoted "foo" ++ "}".

Definition note_text : string := "{" ++ quoted "note" ++ ": 1}".

Definition documents : list (string * json) :=
  [ (emails_directive,
     JDict [("tool", JStr "get_emails"); ("parameters", JDict [("limit", JInt 5)])]);
    (foo_directive, JDict [("tool", JStr "foo")]);
    (note_text, JDict [("note", JInt 1)]) ].

Definition loads0 : string -> option json := table_loads documents.

Definition net_hello := scripted [chat_answer "Hello!"].
Definition net_note := scripted [chat_answer note_text].
Definition net_unavailable := scripted [inr (mk_response 503 None)].
Definition net_emails :=
  scripted [chat_answer emails_directive;
            ok (JDict [("value", JList [])]);
            chat_answer "Your inbox is empty."].
Definition net_foo :=
  scripted [chat_answer foo_directive; chat_answer "I cannot do that."].
Definition net_down := scripted [inl "Connection refused"].
Definition net_no_buckets := scripted [ok (JDict [("value", JList [])])].
Definition net_patch (answer : string + response) :=
  scripted [ok (JDict [("value", JList [JDict [("id", JStr "B1")]])]);
            inr (mk_response 201
                   (Some (JDict [("id", JStr "T1"); ("title", JStr "X")])));
            answer].

Definition task (id : Z) (title : string) (percent : Z) : json :=
  JDict [("id", JInt id); ("title", JStr title); ("percentComplete", JInt percent)].

Definition net_tasks :=
  scripted [ok (JDict [("value", JList [JDict [("id", JStr "P1")];
                                         JDict [("id", JStr "P2")]])]);
            ok (JDict [("value", JList [task 1 "write" 50; task 2 "ship" 100;
                                         task 3 "plan" 0])])].

(** ** Vocabulary of the further properties *)

(** A preview of at most 100 characters (or elements). *)
Definition preview_short (preview : json) : Prop :=
  match preview with
  | JStr p => (String.length p <= 100)%nat
  | JList l => (List.length l <= 100)%nat
  | _ => False
  end.

(** An element of the ["emails"] list that [get_emails] returns. *)
Definition is_email_summary (x : json) : Prop :=
  exists subject sender received preview is_read,
    x = JDict [("subject", subject); ("from", sender); ("received", received);
               ("preview", preview); ("is_read", is_read)] /\
    preview_short preview.

(** An element of the ["tasks"] list that [get_tasks] returns. *)
Definition is_task_summary (x : json) : Prop :=
  exists id title percent due priority,
    x = JDict [("id", id); ("title", title); ("percent_complete", percent);
               ("due_date", due); ("priority", priority)].

(** The requests a method call can issue, by method and in order. *)
Definition protocol (c : api_call) : list http_method :=
  match c with
  | Call_get_emails _ _ => [GET]
  | Call_send_email _ _ _ => [POST]
  | Call_get_tasks _ _ => [GET; GET]
  | Call_create_task _ _ _ _ => [GET; POST; PATCH]
  end.

(** The headers of every request of the client. *)
Definition bearer_headers (self : M365Client) : json :=
  JDict [("Authorization", JStr ("Bearer " ++ token self));
         ("Content-Type", JStr "application/json")].

(** The lines the shell handles itself. *)
Definition is_exit (line : string) : Prop :=
  Str.lower (Str.strip line) = "exit" \/ Str.lower (Str.strip line) = "quit".

Definition is_clear (line : string) : Prop :=
  Str.lower (Str.strip line) = "clear".

Definition is_blank (line : string) : Prop := Str.strip line = "".

(** More test doubles. *)
Definition mail (subject : string) (preview : string) : json :=
  JDict [("subject", JStr subject);
         ("from", JDict [("emailAddress", JDict [("address", JStr "ann@example.com")])]);
         ("receivedDateTime", JStr "2024-05-01T08:00:00Z");
         ("bodyPreview", JStr preview);
         ("isRead", JBool false)].

Definition net_inbox :=
  scripted [ok (JDict [("value", JList [mail "Hello" "Short note"; mail "Plan" ""])])].

Definition net_sent (status : Z) := scripted [inr (mk_response status None)].

Definition net_created (created : json) :=
  scripted [ok (JDict [("value", JList [JDict [("id", JStr "B1")]])]);
            inr (mk_response 201 (Some created))].

Definition net_plain_tasks :=
  scripted [ok (JDict [("value", JList [task 1 "write" 50; task 2 "ship" 100])])].

Definition getenv_all (var : string) : option string := Some "value".

Definition getenv_empty_secret (var : string) : option string :=
  if String.eqb var "CLIENT_SECRET" then Some "" else Some "value".

Definition granted : json := JDict [("access_token", JStr "t0")].

Definition denied : json :=
  JDict [("error", JStr "invalid_client");
         ("error_description", JStr "bad secret")].

(** ** The building blocks on small inputs *)

Example strip_example :
  Str.strip (Str.nl ++ "  {a} " ++ Str.nl) = "{a}".
Proof. reflexivity. Qed.

Example endswith_example :
  Str.endswith "{a}" "}" = true /\ Str.endswith "}" "{a}" = false.
Proof. split; reflexivity. Qed.

Example of_Z_example : Str.of_Z 503 = "503" /\ Str.of_Z (-7) = "-7".
Proof. split; reflexivity. Qed.

Example lt_100_example :
  py_lt_100 (JFloat 99.5%float) = Return true /\
  py_lt_100 (JInt 100) = Return false /\
  py_lt_100 (JBool true) = Return true.
Proof. repeat split; reflexivity. Qed.

Example emails_params_sender :
  emails_params (JInt 5) (JStr "from: bob@example.com")
  = Return [("$top", JInt 5); ("$orderby", JStr "receivedDateTime DESC");
            ("$filter", JStr "from/emailAddress/address eq 'bob@example.com'")].
Proof. reflexivity. Qed.

Example emails_params_number :
  emails_params (JInt 5) (JInt 1)
  = Raise (mk_exn AttributeError "'int' object has no attribute 'startswith'").
Proof. reflexivity. Qed.

Example system_prompt_example :
  Str.startswith _create_system_prompt
    "You are a helpful personal assistant with access to Microsoft 365." = true /\
  Str.contains _create_system_prompt
    ("- create_task: Create a new task in Microsoft Planner" ++ Str.nl) = true /\
  Str.contains _create_system_prompt
    ("Assistant: {" ++ quoted "tool" ++ ": " ++ quoted "get_emails" ++ ", "
       ++ quoted "parameters" ++ ": {" ++ quoted "limit" ++ ": 10}}") = true.
Proof. repeat split; vm_compute; reflexivity. Qed.

(** ** Running the monad *)

Lemma run_bind {A B} (m : M A) (k : A -> M B) s a s' :
  m s = (Return a, s') -> mbind m k s = k a s'.
Proof. unfold mbind; intros ->; reflexivity. Qed.

(** [_call_ollama] issues exactly its request and leaves the rest alone. *)
Lemma call_ollama_state self messages s r s' :
  _call_ollama self messages s = (r, s') ->
  s' = log_request (chat_request self messages) s.
Proof.
  unfold _call_ollama, mbind, requests, lift, raise.
  destruct (net _ _) as [msg|resp]; [congruence|].
  destruct (status_code resp =? 200); congruence.
Qed.

Lemma process_request_unfold self u s :
  process_request self u s =
  match first_completion self u s with
  | (Raise e, s1) => (Raise e, s1)
  | (Return response_text, s1) =>
      match _is_tool_call response_text with
      | Raise e => (Raise e, s1)
      | Return is_call =>
          let plain := (Return response_text,
                        push (message "assistant" response_text) s1) in
          if is_call then
            match tool_round_trip self response_text s1 with
            | (Return (Some final_response), s2) => (Return final_response, s2)
            | (Return None, s2) =>
                (Return response_text, push (message "assistant" response_text) s2)
            | (Raise e, s2) =>
                match exn_kind e with
                | JSONDecodeError =>
                    (Return response_text,
                     push (message "assistant" response_text) s2)
                | _ => (Raise e, s2)
                end
            end
          else plain
      end
  end.
Proof.
  unfold process_request, first_completion, user_message.
  unfold mbind at 1. unfold append_history at 1.
  unfold mbind at 1. unfold get_history at 1.
  unfold mbind at 1.
  destruct (_call_ollama _ _ _) as [[response_text|e] s1]; [|reflexivity].
  unfold mbind at 1. unfold lift at 1.
  destruct (_is_tool_call response_text) as [[|]|e]; try reflexivity.
  unfold mbind at 1, try_except.
  destruct (tool_round_trip self response_text s1) as [[[final|]|e] s2];
    try reflexivity.
  destruct e as [[] msg]; reflexivity.
Qed.

(** ** What the client leaves alone *)

Lemma client_step_refl hdr s : client_step hdr s s.
Proof.
  repeat split; exists []; split; [now rewrite app_nil_r | constructor].
Qed.

Lemma client_step_trans hdr s1 s2 s3 :
  client_step hdr s1 s2 -> client_step hdr s2 s3 -> client_step hdr s1 s3.
Proof.
  intros (Hh1 & Hc1 & n1 & Hs1 & Hf1) (Hh2 & Hc2 & n2 & Hs2 & Hf2).
  repeat split; [congruence | congruence |].
  exists (n1 ++ n2); split.
  - now rewrite Hs2, Hs1, app_assoc.
  - now apply Forall_app.
Qed.

Lemma preserves_ret {A} hdr (a : A) : preserves hdr (ret a).
Proof. intros s r s' [= <- <-]; apply client_step_refl. Qed.

Lemma preserves_lift {A} hdr (x : result A) : preserves hdr (lift x).
Proof. intros s r s' [= <- <-]; apply client_step_refl. Qed.

Lemma preserves_requests hdr r :
  req_headers r = Some hdr -> preserves hdr (requests r).
Proof.
  intros Hr s res s'; unfold requests.
  assert (client_step hdr s (log_request r s)).
  { repeat split; exists [r]; split; [reflexivity | now constructor]. }
  destruct (net _ _); intros [= <- <-]; assumption.
Qed.

Lemma preserves_bind {A B} hdr (m : M A) (k : A -> M B) :
  preserves hdr m -> (forall a, preserves hdr (k a)) -> preserves hdr (mbind m k).
Proof.
  intros Hm Hk s r s'; unfold mbind.
  destruct (m s) as [[a|e] s1] eqn:E; intros H.
  - eapply client_step_trans; [eapply Hm, E | eapply Hk, H].
  - injection H as <- <-; eapply Hm, E.
Qed.

(** Breaks a goal [preserves hdr m] down along the structure of [m]. *)
Ltac preserves_tac :=
  repeat first
    [ apply preserves_ret
    | apply preserves_lift
    | apply preserves_requests; reflexivity
    | apply preserves_bind; [|intro]
    | match goal with
      | |- preserves _ (if ?b then _ else _) => destruct b
      | |- preserves _ (match ?x with _ => _ end) => destruct x
      | |- preserves _ (let _ := _ in _) => cbv zeta
      end ].

Lemma client_method_intro {A} hdr c (m : M A) :
  preserves hdr m -> client_method hdr c (enter c ;; m).
Proof.
  intros Hm s r s'; unfold mbind, enter; apply Hm.
Qed.

Lemma get_emails_method self limit filter_str :
  client_method (_get_headers self) (Call_get_emails limit filter_str)
    (get_emails self limit filter_str).
Proof.
  apply client_method_intro. preserves_tac.
Qed.

Lemma send_email_method self to subject body :
  client_method (_get_headers self) (Call_send_email to subject body)
    (send_email self to subject body).
Proof.
  apply client_method_intro. preserves_tac.
Qed.

Lemma get_tasks_method self plan_id filter_str :
  client_method (_get_headers self) (Call_get_tasks plan_id filter_str)
    (get_tasks self plan_id filter_str).
Proof.
  apply client_method_intro. preserves_tac.
Qed.

Lemma create_task_method self plan_id title description due_date :
  client_method (_get_headers self)
    (Call_create_task plan_id title description due_date)
    (create_task self plan_id title description due_date).
Proof.
  apply client_method_intro. preserves_tac.
Qed.

(** ** The tool round trip, unfolded *)

Lemma tool_round_trip_unfold self response_text s1 :
  tool_round_trip self response_text s1 =
  match parse_directive response_text with
  | Raise e => (Raise e, s1)
  | Return (tool_name, parameters) =>
      match execute_tool self tool_name parameters s1 with
      | (Raise e, s2) => (Raise e, s2)
      | (Return tool_result, s2) =>
          let s3 := with_tool_messages tool_name tool_result s2 in
          match _call_ollama self (JList (system_message :: conversation_history s3)) s3 with
          | (Return final_response, s4) =>
              (Return (Some final_response),
               push (message "assistant" final_response) s4)
          | (Raise e, s4) => (Raise e, s4)
          end
      end
  end.
Proof.
  unfold tool_round_trip, parse_directive, with_tool_messages.
  unfold mbind at 1, lift at 1.
  destruct (loads response_text) as [tool_call|e]; [|reflexivity].
  unfold mbind at 1, lift at 1. cbn [rbind].
  destruct (py_get tool_call "tool" JNull) as [tool_name|e]; [|reflexivity].
  unfold mbind at 1, lift at 1. cbn [rbind].
  destruct (py_get tool_call "parameters" (JDict [])) as [parameters|e];
    [|reflexivity].
  unfold mbind at 1. cbn [rbind].
  destruct (execute_tool self tool_name parameters s1) as [[tool_result|e] s2];
    [|reflexivity].
  unfold mbind at 1, append_history at 1.
  unfold mbind at 1, append_history at 1.
  unfold mbind at 1, get_history at 1.
  unfold mbind at 1.
  destruct (_call_ollama _ _ _) as [[final|e] s4]; reflexivity.
Qed.

(** [execute_tool] converts every exception into an error record. *)
Lemma execute_tool_returns self function_name arguments s :
  exists tool_result s',
    execute_tool self function_name arguments s = (Return tool_result, s').
Proof.
  unfold execute_tool, try_except.
  match goal with |- context [match ?m s with _ => _ end] =>
    destruct (m s) as [[v|e] s'] end; unfold ret; eauto.
Qed.

Lemma invoke_method self c :
  client_method (_get_headers self) c (invoke self c).
Proof.
  destruct c; cbn [invoke];
    auto using get_emails_method, send_email_method, get_tasks_method,
               create_task_method.
Qed.

Lemma execute_tool_corresponding self tool_name parameters c :
  corresponding_call tool_name parameters = Some c ->
  execute_tool self (JStr tool_name) parameters =
  try_except (invoke (m365 self) c) as_error_record.
Proof.
  unfold corresponding_call, execute_tool, as_error_record.
  destruct parameters as [| | | | |l|p]; try discriminate.
  cbn [py_eq_str py_get py_getitem argument].
  destruct (String.eqb tool_name "get_emails").
  { intros [= <-]; reflexivity. }
  destruct (String.eqb tool_name "send_email").
  { destruct (Dict.get p "to"), (Dict.get p "subject"), (Dict.get p "body");
      try discriminate.
    intros [= <-]; reflexivity. }
  destruct (String.eqb tool_name "get_tasks").
  { intros [= <-]; reflexivity. }
  destruct (String.eqb tool_name "create_task"); [|discriminate].
  destruct (Dict.get p "plan_id"), (Dict.get p "title"); try discriminate.
  intros [= <-]; reflexivity.
Qed.

(** ** Classification of the response *)

Lemma is_tool_call_str R :
  _is_tool_call (JStr R) =
  Return (brace_shaped R &&
          match json_loads (Str.strip R) with
          | Some data =>
              match py_contains "tool" data with
              | Return b => b
              | Raise _ => false
              end
          | None => false
          end).
Proof.
  unfold _is_tool_call, brace_shaped; cbn [py_strip rbind].
  destruct (_ && _); [|reflexivity].
  destruct (json_loads _) as [data|]; [|reflexivity].
  destruct (py_contains "tool" data); reflexivity.
Qed.

Lemma first_completion_state self u s r s1 :
  first_completion self u s = (r, s1) ->
  s1 = log_request
         (chat_request self
            (JList (system_message :: conversation_history s ++ [user_message u])))
         (push (user_message u) s).
Proof. unfold first_completion; apply call_ollama_state. Qed.

(** A response that is not classified as a tool call, or that
    [json.loads] rejects as it stands, is answered as plain text. *)
Lemma plain_turn self u s R s1 :
  first_completion self u s = (Return (JStr R), s1) ->
  _is_tool_call (JStr R) = Return false \/ json_loads R = None ->
  process_request self u s =
  (Return (JStr R), push (message "assistant" (JStr R)) s1).
Proof.
  intros H1 Hc. rewrite process_request_unfold, H1.
  destruct (_is_tool_call (JStr R)) as [[|]|e] eqn:E.
  - destruct Hc as [Hc|Hc]; [discriminate|].
    rewrite tool_round_trip_unfold.
    unfold parse_directive, loads. rewrite Hc. reflexivity.
  - reflexivity.
  - rewrite is_tool_call_str in E; discriminate.
Qed.

(** ** The assistant loop *)

(** C1: a response text [R] is classified as a candidate tool call exactly
    when, trimmed, it starts with an opening brace, ends with a closing
    brace and parses to an object that has a ["tool"] key; the
    classification never fails on a text; and a text whose parse fails
    (trimmed, or as it stands) or whose object lacks the key is answered as
    plain conversational text.  [Hobj] is the JSON grammar: a text that
    starts with a brace decodes to an object. *)
Theorem tool_call_classification
    (Hobj : forall t v, Str.startswith t "{" = true ->
                        json_loads t = Some v -> exists d, v = JDict d)
    (R : string) :
  (_is_tool_call (JStr R) = Return true <->
   Str.startswith (Str.strip R) "{" = true /\
   Str.endswith (Str.strip R) "}" = true /\
   exists d, json_loads (Str.strip R) = Some (JDict d) /\
             Dict.mem d "tool" = true) /\
  (exists b, _is_tool_call (JStr R) = Return b) /\
  (forall self u s s1,
     first_completion self u s = (Return (JStr R), s1) ->
     json_loads (Str.strip R) = None \/
     json_loads R = None \/
     (exists d, json_loads (Str.strip R) = Some (JDict d) /\
                Dict.mem d "tool" = false) ->
     process_request self u s =
     (Return (JStr R), push (message "assistant" (JStr R)) s1)).
Proof.
  rewrite is_tool_call_str. unfold brace_shaped.
  split; [|split].
  - split.
    + intros [= H].
      apply andb_prop in H as [H1 H2]. apply andb_prop in H1 as [Ha Hb].
      repeat split; try assumption.
      destruct (json_loads (Str.strip R)) as [data|] eqn:E; [|discriminate].
      destruct (Hobj _ _ Ha E) as [d ->].
      exists d; split; [reflexivity|]. exact H2.
    + intros (Ha & Hb & d & -> & Hm).
      rewrite Ha, Hb; cbn. now rewrite Hm.
  - eexists; reflexivity.
  - intros self u s s1 H1 Hc. apply (plain_turn _ _ _ H1).
    rewrite is_tool_call_str.
    destruct Hc as [Hc|[Hc|(d & Hc & Hm)]].
    + left. rewrite Hc. now rewrite andb_false_r.
    + now right.
    + left. rewrite Hc; cbn. rewrite Hm. now rewrite andb_false_r.
Qed.

(** C8: when the response text is plain (trimmed, it is not written between
    braces, or it parses to an object without a ["tool"] key),
    [process_request] returns the text itself and the history grows by the
    user message and exactly one assistant message, which holds the text. *)
Theorem plain_text_turn self u s R s1 :
  first_completion self u s = (Return (JStr R), s1) ->
  brace_shaped R = false \/
  (exists d, json_loads (Str.strip R) = Some (JDict d) /\
             Dict.mem d "tool" = false) ->
  exists s2,
    process_request self u s = (Return (JStr R), s2) /\
    conversation_history s2 =
    conversation_history s ++ [user_message u; message "assistant" (JStr R)].
Proof.
  intros H1 Hc. eexists; split.
  - apply (plain_turn _ _ _ H1). left. rewrite is_tool_call_str.
    destruct Hc as [->|(d & -> & Hm)]; [reflexivity|].
    cbn. rewrite Hm. now rewrite andb_false_r.
  - rewrite (first_completion_state _ _ _ H1). cbn.
    now rewrite <- app_assoc.
Qed.

(** C10: the user message is appended before the first completion call, so
    when that call fails the turn ends with the exception and the history
    keeps the user message: nothing is rolled back.  A status other than 200
    is such a failure. *)
Theorem failed_completion_keeps_user_message self u s :
  (forall e s1,
     first_completion self u s = (Raise e, s1) ->
     process_request self u s = (Raise e, s1) /\
     conversation_history s1 = conversation_history s ++ [user_message u]) /\
  (forall resp,
     net (sent s)
         (chat_request self
            (JList (system_message :: conversation_history s ++ [user_message u])))
     = inr resp ->
     status_code resp <> 200 ->
     exists s1,
       first_completion self u s =
       (Raise (mk_exn PlainException
                 ("Ollama API error: " ++ Str.of_Z (status_code resp))), s1)).
Proof.
  split.
  - intros e s1 H1. split.
    + now rewrite process_request_unfold, H1.
    + now rewrite (first_completion_state _ _ _ H1).
  - intros resp Hnet Hst.
    unfold first_completion, _call_ollama, mbind, requests. cbn.
    rewrite Hnet. apply Z.eqb_neq in Hst. rewrite Hst.
    eexists; reflexivity.
Qed.

(** ** What a tool execution changes *)

Lemma remote_step_refl hdr s : remote_step hdr s s.
Proof. split; [reflexivity|]. exists []; split; [now rewrite app_nil_r | constructor]. Qed.

Lemma remote_step_trans hdr s1 s2 s3 :
  remote_step hdr s1 s2 -> remote_step hdr s2 s3 -> remote_step hdr s1 s3.
Proof.
  intros (Hh1 & n1 & Hs1 & Hf1) (Hh2 & n2 & Hs2 & Hf2).
  split; [congruence|].
  exists (n1 ++ n2); split.
  - now rewrite Hs2, Hs1, app_assoc.
  - now apply Forall_app.
Qed.

Lemma remote_ret {A} hdr (a : A) : remote hdr (ret a).
Proof. intros s r s' [= <- <-]; apply remote_step_refl. Qed.

Lemma remote_lift {A} hdr (x : result A) : remote hdr (lift x).
Proof. intros s r s' [= <- <-]; apply remote_step_refl. Qed.

Lemma remote_bind {A B} hdr (m : M A) (k : A -> M B) :
  remote hdr m -> (forall a, remote hdr (k a)) -> remote hdr (mbind m k).
Proof.
  intros Hm Hk s r s'; unfold mbind.
  destruct (m s) as [[a|e] s1] eqn:E; intros H.
  - eapply remote_step_trans; [eapply Hm, E | eapply Hk, H].
  - injection H as <- <-; eapply Hm, E.
Qed.

Lemma remote_try {A} hdr (m : M A) h :
  remote hdr m -> (forall e, remote hdr (h e)) -> remote hdr (try_except m h).
Proof.
  intros Hm Hh s r s'; unfold try_except.
  destruct (m s) as [[a|e] s1] eqn:E; intros H.
  - injection H as <- <-; eapply Hm, E.
  - eapply remote_step_trans; [eapply Hm, E | eapply Hh, H].
Qed.

Lemma remote_method {A} hdr c (m : M A) :
  client_method hdr c m -> remote hdr m.
Proof.
  intros Hm s r s' E. destruct (Hm _ _ _ E) as (Hh & _ & new & Hs & Hf).
  split; [exact Hh | exists new; split; assumption].
Qed.

Lemma execute_tool_remote self function_name arguments :
  remote (_get_headers (m365 self))
         (execute_tool self function_name arguments).
Proof.
  unfold execute_tool.
  apply remote_try; [|intro; apply remote_ret].
  repeat match goal with
         | |- remote _ (if ?b then _ else _) => destruct b
         end;
    repeat first
      [ eapply remote_method; apply get_emails_method
      | eapply remote_method; apply send_email_method
      | eapply remote_method; apply get_tasks_method
      | eapply remote_method; apply create_task_method
      | apply remote_ret
      | apply remote_lift
      | apply remote_bind; [|intro] ].
Qed.

Lemma execute_tool_unknown self N arguments s :
  supported N = false ->
  execute_tool self (JStr N) arguments s =
  (Return (error_result ("Unknown function: " ++ N)), s).
Proof.
  unfold supported, execute_tool, try_except. cbn [py_eq_str py_str].
  intros H. repeat (apply orb_false_elim in H as [H ?]).
  repeat match goal with E : String.eqb _ _ = false |- _ => rewrite E; clear E end.
  reflexivity.
Qed.

Lemma first_completion_history self u s r s1 :
  first_completion self u s = (r, s1) ->
  conversation_history s1 = conversation_history s ++ [user_message u] /\
  api_calls s1 = api_calls s /\
  sent s1 = sent s ++ [chat_request self
                         (JList (system_message
                                   :: conversation_history s ++ [user_message u]))].
Proof. intros H; rewrite (first_completion_state _ _ _ H); repeat split. Qed.

Lemma try_invoke_calls self c s r s' :
  try_except (invoke self c) as_error_record s = (r, s') ->
  api_calls s' = api_calls s ++ [c].
Proof.
  unfold try_except, as_error_record, ret.
  destruct (invoke self c s) as [[v|e] s1] eqn:E; intros [= <- <-];
    now destruct (invoke_method _ _ _ E) as (_ & -> & _).
Qed.

(** C2: when the first completion response is a valid tool-call directive
    (it is classified as a tool call, [json.loads] accepts it, and it names a
    supported tool with the arguments the operation requires), the turn
    enters exactly one method of the client, the corresponding one; its
    result, exceptions turned into error records, is the tool result; and
    when the second completion call produces [F], [process_request] returns
    [F] and the history has grown by the user message followed by exactly
    three messages, written out here field by field: the assistant message
    [[Used tool: name]], the user message that holds the serialized tool
    result between ["Tool result: "] and the request to summarize it, and
    the assistant message [F]. *)
Theorem supported_tool_turn self u s R d tool_name call s1 :
  first_completion self u s = (Return (JStr R), s1) ->
  _is_tool_call (JStr R) = Return true ->
  json_loads R = Some (JDict d) ->
  Dict.get d "tool" = Some (JStr tool_name) ->
  corresponding_call tool_name (argument d "parameters" (JDict [])) = Some call ->
  exists tool_result s2,
    try_except (invoke (m365 self) call) as_error_record s1
    = (Return tool_result, s2) /\
    api_calls s2 = api_calls s ++ [call] /\
    forall F s3,
      (let s' := with_tool_messages (JStr tool_name) tool_result s2 in
       _call_ollama self (JList (system_message :: conversation_history s')) s'
       = (Return F, s3)) ->
      exists s4,
        process_request self u s = (Return F, s4) /\
        conversation_history s4 =
        conversation_history s
          ++ [JDict [("role", JStr "user"); ("content", JStr u)];
              JDict [("role", JStr "assistant");
                     ("content", JStr ("[Used tool: " ++ tool_name ++ "]"))];
              JDict [("role", JStr "user");
                     ("content",
                      JStr ("Tool result: " ++ json_dumps tool_result
                            ++ Str.nl ++ Str.nl
                            ++ "Please summarize this information in a clear, friendly way for the user."))];
              JDict [("role", JStr "assistant"); ("content", F)]] /\
        api_calls s4 = api_calls s ++ [call].
Proof.
  intros H1 Hc Hl Ht Hcall.
  pose proof (execute_tool_corresponding self _ _ Hcall) as Hex.
  destruct (execute_tool_returns self (JStr tool_name)
              (argument d "parameters" (JDict [])) s1) as (v & s2 & He).
  destruct (first_completion_history _ _ _ H1) as (Hh1 & Hc1 & _).
  assert (Hcalls : api_calls s2 = api_calls s ++ [call]).
  { rewrite Hex in He. rewrite (try_invoke_calls _ _ _ He). now rewrite Hc1. }
  exists v, s2. split; [now rewrite <- Hex|]. split; [exact Hcalls|].
  intros F s3 H2. cbv zeta in H2.
  exists (push (message "assistant" F) s3). split.
  - rewrite process_request_unfold, H1, Hc. cbv zeta.
    rewrite tool_round_trip_unfold.
    unfold parse_directive, loads. rewrite Hl. cbn [rbind py_get].
    rewrite Ht. fold (argument d "parameters" (JDict [])).
    rewrite He. cbv zeta. rewrite H2. reflexivity.
  - destruct (execute_tool_remote _ _ _ _ He) as (Hh2 & _).
    rewrite (call_ollama_state _ _ _ H2). cbn.
    rewrite Hh2, Hh1, Hcalls. split; [|reflexivity].
    now rewrite <- !app_assoc.
Qed.

(** ** Every turn, as its requests and its messages *)

Lemma turn_shape self u s res s' :
  process_request self u s = (res, s') ->
  plain_shape self u s s' \/ tool_shape self u s s'.
Proof.
  intros H. rewrite process_request_unfold in H.
  destruct (first_completion self u s) as [[R|e] s1] eqn:H1;
    destruct (first_completion_history _ _ _ H1) as (Hh1 & _ & Hs1).
  2:{ injection H as <- <-. left. exists []. rewrite app_nil_r.
      repeat split; try assumption. now left. }
  assert (Hplain : forall r0, (r0, push (message "assistant" R) s1) = (res, s') ->
                              plain_shape self u s s').
  { intros r0 [= <- <-]. exists [message "assistant" R]. cbn.
    rewrite Hh1. repeat split; try assumption. right; eauto. }
  assert (Hraise : forall r0, (r0, s1) = (res, s') -> plain_shape self u s s').
  { intros r0 [= <- <-]. exists []. rewrite app_nil_r.
    repeat split; try assumption. now left. }
  destruct (_is_tool_call R) as [[|]|e]; eauto.
  rewrite tool_round_trip_unfold in H.
  destruct (parse_directive R) as [[tool_name parameters]|e].
  2:{ destruct (exn_kind e); eauto. }
  destruct (execute_tool_returns self tool_name parameters s1) as (v & s2 & He).
  rewrite He in H. cbv zeta in H.
  destruct (execute_tool_remote _ _ _ _ He) as (Hh2 & api & Hs2 & Hapi).
  clear Hplain Hraise. right. exists api, tool_name, v.
  destruct (_call_ollama _ _ _) as [[F|e] s4] eqn:H2;
    apply call_ollama_state in H2;
    assert (Hs4 : sent s4
                  = sent s ++ completion self (conversation_history s ++ [user_message u])
                      :: api ++
                      [completion self
                         ((conversation_history s ++ [user_message u])
                            ++ [tool_marker tool_name; tool_result_message v])]
                  /\ conversation_history s4
                     = (conversation_history s ++ [user_message u])
                         ++ [tool_marker tool_name; tool_result_message v])
      by (subst s4; cbn; rewrite Hs2, Hs1, Hh2, Hh1, <- !app_assoc;
          split; reflexivity);
    clear H2; destruct Hs4 as [Hs4 Hh4].
  - injection H as <- <-. exists [message "assistant" F]. cbn.
    rewrite Hh4. repeat split; try assumption. right; eauto.
  - destruct (exn_kind e); injection H as <- <-;
      first [ exists []; cbv zeta; rewrite app_nil_r; repeat split;
              try assumption; now left
            | exists [message "assistant" R]; cbn; rewrite Hh4;
              repeat split; try assumption; right; eauto ].
Qed.

Lemma speaker_message role c :
  role = "user" \/ role = "assistant" -> speaker (message role c).
Proof. intros [->| ->]; [left | right]; reflexivity. Qed.

Lemma answer_only_speaker tail : answer_only tail -> Forall speaker tail.
Proof.
  intros [->|[c ->]]; [constructor|].
  constructor; [apply speaker_message; now right | constructor].
Qed.

(** C9: every completion call of a turn posts the system message followed by
    the whole history of that moment.  The request of a completion call is
    written out as [posted h]: a POST to [/api/chat] of the model server,
    without headers, whose ["messages"] are one message of role ["system"]
    holding the system prompt, followed by the messages [h].  A turn has one
    of two shapes.  Plain: one completion call, made when the history is the
    old one plus the user message; after it only the answer is appended.
    Tool: that call, then requests of the API client (they carry the bearer
    headers), then a second completion call made when the history also holds
    the marker and the tool result; after it only the answer is appended.
    The system message is built for each call and never stored: every message
    the turn appends has the role user or assistant. *)
Theorem completion_calls_carry_history self u s res s' :
  process_request self u s = (res, s') ->
  let posted (h : list json) :=
    {| req_method := POST;
       req_url := ollama_url self ++ "/api/chat";
       req_headers := None;
       req_params := None;
       req_json :=
         Some (JDict
                 [("model", JStr (ollama_model self));
                  ("messages",
                   JList (JDict [("role", JStr "system");
                                 ("content", JStr _create_system_prompt)] :: h));
                  ("stream", JBool false);
                  ("options", JDict [("temperature", JFloat 0.7%float)])]) |} in
  let answered (tail : list json) :=
    tail = [] \/
    exists c, tail = [JDict [("role", JStr "assistant"); ("content", c)]] in
  let h1 :=
    conversation_history s ++ [JDict [("role", JStr "user"); ("content", JStr u)]] in
  ((exists tail,
      sent s' = sent s ++ [posted h1] /\
      conversation_history s' = h1 ++ tail /\
      answered tail)
   \/
   (exists api tool_name tool_result tail,
      let h2 :=
        h1 ++ [JDict [("role", JStr "assistant");
                      ("content", JStr ("[Used tool: " ++ py_str tool_name ++ "]"))];
               JDict [("role", JStr "user");
                      ("content",
                       JStr ("Tool result: " ++ json_dumps tool_result
                             ++ Str.nl ++ Str.nl
                             ++ "Please summarize this information in a clear, friendly way for the user."))]] in
      sent s' = sent s ++ posted h1 :: api ++ [posted h2] /\
      Forall (fun r =>
                req_headers r
                = Some (JDict [("Authorization",
                                JStr ("Bearer " ++ token (m365 self)));
                               ("Content-Type", JStr "application/json")])) api /\
      conversation_history s' = h2 ++ tail /\
      answered tail)) /\
  exists added,
    conversation_history s' = conversation_history s ++ added /\
    Forall speaker added.
Proof.
  intros H. cbv zeta.
  destruct (turn_shape _ _ _ H) as [Hp|Ht]; split; try (left; exact Hp);
    try (right; exact Ht).
  - destruct Hp as (tail & _ & Hh & Ha).
    exists (user_message u :: tail). split.
    + now rewrite Hh, <- app_assoc.
    + constructor; [apply speaker_message; now left|].
      now apply answer_only_speaker.
  - destruct Ht as (api & n & v & tail & _ & _ & Hh & Ha).
    exists (user_message u :: tool_marker n :: tool_result_message v :: tail).
    split.
    + now rewrite Hh, <- !app_assoc.
    + repeat (constructor; [apply speaker_message; auto|]).
      now apply answer_only_speaker.
Qed.

(** C4: for a tool name [N] that is none of the four supported ones,
    [execute_tool] returns the record [{"error": "Unknown function: N"}]
    whatever the parameters are and leaves the state as it is (no request
    is issued, no client method entered); and a turn whose directive names
    [N] still makes the whole round trip.  Everything is written out field
    by field: the record [err]; the user message fed back, whose text holds
    the serialization of [err] between ["Tool result: "] and the request to
    summarize it; and the two requests the turn issues, both completion
    calls ([posted h]: a POST to [/api/chat] whose ["messages"] are the
    system message followed by [h]), the second one on the history that ends
    with the marker and that user message.  When the second call produces
    [F], the turn returns [F]. *)
Theorem unknown_tool_turn self N :
  supported N = false ->
  let err := JDict [("error", JStr ("Unknown function: " ++ N))] in
  let posted (h : list json) :=
    {| req_method := POST;
       req_url := ollama_url self ++ "/api/chat";
       req_headers := None;
       req_params := None;
       req_json :=
         Some (JDict
                 [("model", JStr (ollama_model self));
                  ("messages",
                   JList (JDict [("role", JStr "system");
                                 ("content", JStr _create_system_prompt)] :: h));
                  ("stream", JBool false);
                  ("options", JDict [("temperature", JFloat 0.7%float)])]) |} in
  (forall arguments s, execute_tool self (JStr N) arguments s = (Return err, s)) /\
  (forall u s R d s1,
     first_completion self u s = (Return (JStr R), s1) ->
     _is_tool_call (JStr R) = Return true ->
     json_loads R = Some (JDict d) ->
     Dict.get d "tool" = Some (JStr N) ->
     let h1 :=
       conversation_history s
         ++ [JDict [("role", JStr "user"); ("content", JStr u)]] in
     let h2 :=
       h1 ++ [JDict [("role", JStr "assistant");
                     ("content", JStr ("[Used tool: " ++ N ++ "]"))];
              JDict [("role", JStr "user");
                     ("content",
                      JStr ("Tool result: " ++ json_dumps err
                            ++ Str.nl ++ Str.nl
                            ++ "Please summarize this information in a clear, friendly way for the user."))]] in
     exists res s2 tail,
       process_request self u s = (res, s2) /\
       sent s2 = sent s ++ [posted h1; posted h2] /\
       conversation_history s2 = h2 ++ tail /\
       forall F s3,
         _call_ollama self (JList (system_message :: h2))
                      (with_tool_messages (JStr N) err s1) = (Return F, s3) ->
         res = Return F /\
         tail = [JDict [("role", JStr "assistant"); ("content", F)]]).
Proof.
  intros HN err posted. split.
  { intros; now apply execute_tool_unknown. }
  intros u s R d s1 H1 Hc Hl Ht h1 h2.
  change err with (error_result ("Unknown function: " ++ N)) in *.
  change posted with (fun h => chat_request self (JList (system_message :: h))).
  cbv beta.
  change h2 with ((conversation_history s ++ [user_message u])
                    ++ [message "assistant" (JStr ("[Used tool: " ++ N ++ "]"));
                        tool_result_message (error_result ("Unknown function: " ++ N))])
    in *.
  change h1 with (conversation_history s ++ [user_message u]) in *.
  clear err posted h1 h2.
  set (err := error_result ("Unknown function: " ++ N)).
  set (h1 := conversation_history s ++ [user_message u]).
  set (h2 := h1 ++ [message "assistant" (JStr ("[Used tool: " ++ N ++ "]"));
                    tool_result_message err]).
  destruct (first_completion_history _ _ _ H1) as (Hh1 & _ & Hs1).
  rewrite process_request_unfold, H1, Hc. cbv zeta.
  rewrite tool_round_trip_unfold.
  unfold parse_directive, loads. rewrite Hl. cbn [rbind py_get]. rewrite Ht.
  rewrite execute_tool_unknown by exact HN. cbv zeta.
  fold err.
  assert (Hh2 : conversation_history (with_tool_messages (JStr N) err s1) = h2).
  { cbn. rewrite Hh1. subst h2 h1. now rewrite <- !app_assoc. }
  rewrite Hh2.
  destruct (_call_ollama _ _ _) as [[F|e] s4] eqn:H2;
    pose proof (call_ollama_state _ _ _ H2) as Hs4;
    assert (Hsent : sent s4
                    = sent s ++ [chat_request self (JList (system_message :: h1));
                                 chat_request self (JList (system_message :: h2))])
      by (subst s4; cbn; rewrite Hs1, <- app_assoc; reflexivity);
    assert (Hhist : conversation_history s4 = h2)
      by (subst s4; exact Hh2).
  - exists (Return F), (push (message "assistant" F) s4), [message "assistant" F].
    split; [reflexivity|]. split; [exact Hsent|].
    split; [unfold push; cbn [conversation_history]; now rewrite Hhist|].
    intros F' t3 H3. now injection H3 as <- _.
  - destruct (exn_kind e).
    all: first
      [ exists (Raise e), s4, []; rewrite app_nil_r;
        split; [reflexivity|]; split; [assumption|]; split; [assumption|];
        intros F' t3 [=]
      | exists (Return (JStr R)), (push (message "assistant" (JStr R)) s4),
               [message "assistant" (JStr R)];
        split; [reflexivity|]; split; [exact Hsent|];
        split; [unfold push; cbn [conversation_history]; now rewrite Hhist|];
        intros F' t3 [=] ].
Qed.

(** ** The Microsoft 365 client *)

Lemma run_requests r s resp :
  net (sent s) r = inr resp -> requests r s = (Return resp, log_request r s).
Proof. unfold requests; now intros ->. Qed.

(** C5: when the bucket listing of the plan answers 200 with no bucket (an
    empty ["value"], or none), [create_task] returns the error record
    ["No buckets found in plan"] and the listing is the only request it
    issued: the task-creation POST is not sent. *)
Theorem create_task_without_buckets
    self plan_id title description due_date s resp data :
  net (sent s) (buckets_request self plan_id) = inr resp ->
  status_code resp = 200 ->
  body resp = Some data ->
  py_get data "value" (JList []) = Return (JList []) ->
  exists s',
    create_task self plan_id title description due_date s
    = (Return (error_result "No buckets found in plan"), s') /\
    sent s' = sent s ++ [buckets_request self plan_id] /\
    req_method (buckets_request self plan_id) = GET.
Proof.
  intros Hnet Hst Hbody Hval.
  eexists; split; [|split; [|reflexivity]].
  - unfold create_task.
    unfold mbind at 1, enter at 1.
    erewrite run_bind by (apply run_requests; exact Hnet).
    rewrite Hst. cbn [Z.eqb Pos.eqb negb].
    unfold mbind at 1, lift at 1, response_json. rewrite Hbody. cbn [rbind].
    rewrite Hval. reflexivity.
  - reflexivity.
Qed.

(** C6 (amended): with a description, after the task-creation POST answered
    201 with a task that has an id and a title, [create_task] returns
    [{status: success, task_id, title}] whatever response the description
    PATCH receives: its status and its body are not looked at. *)
Theorem description_patch_response_ignored
    self plan_id title description due_date s
    resp1 data buckets bucket_id resp2 task id task_title resp3 :
  net (sent s) (buckets_request self plan_id) = inr resp1 ->
  status_code resp1 = 200 ->
  body resp1 = Some data ->
  py_get data "value" (JList []) = Return buckets ->
  py_truthy buckets = true ->
  (bucket <~ py_getitem0 buckets ;; py_getitem bucket "id") = Return bucket_id ->
  let create := create_request self plan_id bucket_id title due_date in
  net (sent s ++ [buckets_request self plan_id]) create = inr resp2 ->
  status_code resp2 = 201 ->
  body resp2 = Some task ->
  py_getitem task "id" = Return id ->
  py_getitem task "title" = Return task_title ->
  py_truthy description = true ->
  let patch := details_request self id description in
  net (sent s ++ [buckets_request self plan_id; create]) patch = inr resp3 ->
  exists s',
    create_task self plan_id title description due_date s
    = (Return (JDict [("status", JStr "success"); ("task_id", id);
                      ("title", task_title)]), s') /\
    sent s' = sent s ++ [buckets_request self plan_id; create; patch].
Proof.
  intros Hn1 Hs1 Hb1 Hval Hbk Hid create Hn2 Hs2 Hb2 Htid Htt Hd patch Hn3.
  eexists; split.
  - unfold create_task.
    unfold mbind at 1, enter at 1.
    erewrite run_bind by (apply run_requests; exact Hn1).
    rewrite Hs1. cbn [Z.eqb Pos.eqb negb].
    unfold mbind at 1, lift at 1, response_json at 1.
    rewrite Hb1. cbn [rbind]. rewrite Hval, Hbk. cbn [negb].
    unfold mbind at 1, lift at 1. rewrite Hid.
    erewrite run_bind by (apply run_requests; exact Hn2).
    fold create. rewrite Hs2. cbn [Z.eqb Pos.eqb].
    unfold mbind at 1, lift at 1, response_json at 1. rewrite Hb2.
    rewrite Hd.
    unfold mbind at 1. unfold mbind at 1, lift at 1. rewrite Htid.
    erewrite run_bind.
    2:{ apply run_requests. cbn [sent log_request log_call].
        rewrite <- app_assoc. exact Hn3. }
    unfold ret at 1. unfold lift. rewrite Htt. reflexivity.
  - cbn [sent log_request log_call]. now rewrite <- !app_assoc.
Qed.

Lemma incomplete_filter tasks :
  Forall has_percent tasks -> incomplete tasks = Return (filter below_100 tasks).
Proof.
  induction 1 as [|t tasks (pc & b & Hpc & Hb) _ IH]; [reflexivity|].
  cbn [incomplete filter]. unfold below_100.
  rewrite Hpc. cbn [rbind]. rewrite Hb. cbn [rbind]. rewrite IH.
  reflexivity.
Qed.

(** C7: [get_tasks] without a plan id asks for the plans, goes on with the
    id of the first plan listed, and returns the error record
    ["No plans found"] when none is listed; with a plan id it goes straight
    to the tasks.  The request for the tasks is the same for every filter
    and carries no query parameter; under the filter ["incomplete"] the
    tasks reported are exactly those of the response whose
    [percentComplete] is below 100, in their order. *)
Theorem get_tasks_plan_and_filter self filter_str s :
  (forall plan_id resp data first others first_id,
     py_truthy plan_id = false ->
     net (sent s) (plans_request self) = inr resp ->
     status_code resp = 200 ->
     body resp = Some data ->
     py_get data "value" (JList []) = Return (JList (first :: others)) ->
     py_getitem first "id" = Return first_id ->
     get_tasks self plan_id filter_str s
     = tasks_of_plan self first_id filter_str
         (log_request (plans_request self)
            (log_call (Call_get_tasks plan_id filter_str) s))) /\
  (forall plan_id resp data,
     py_truthy plan_id = false ->
     net (sent s) (plans_request self) = inr resp ->
     status_code resp = 200 ->
     body resp = Some data ->
     py_get data "value" (JList []) = Return (JList []) ->
     exists s',
       get_tasks self plan_id filter_str s
       = (Return (error_result "No plans found"), s') /\
       sent s' = sent s ++ [plans_request self]) /\
  (forall plan_id,
     py_truthy plan_id = true ->
     get_tasks self plan_id filter_str s
     = tasks_of_plan self plan_id filter_str
         (log_call (Call_get_tasks plan_id filter_str) s)) /\
  (forall plan_id,
     req_params (tasks_request self plan_id) = None /\
     exists r s',
       tasks_of_plan self plan_id filter_str s = (r, s') /\
       sent s' = sent s ++ [tasks_request self plan_id] /\
       forall resp data tasks,
         filter_str = JStr "incomplete" ->
         net (sent s) (tasks_request self plan_id) = inr resp ->
         status_code resp = 200 ->
         body resp = Some data ->
         py_get data "value" (JList []) = Return (JList tasks) ->
         Forall has_percent tasks ->
         r = tasks_result plan_id (JList (filter below_100 tasks))).
Proof.
  repeat apply conj.
  - intros plan_id resp data first others first_id Hp Hn Hs Hb Hv Hid.
    unfold get_tasks.
    unfold mbind at 1, enter at 1. rewrite Hp. cbn [negb].
    unfold mbind at 1. unfold mbind at 1.
    erewrite run_requests by exact Hn.
    rewrite Hs. cbn [Z.eqb Pos.eqb negb].
    unfold mbind at 1, lift at 1, response_json at 1.
    rewrite Hb. cbn [rbind]. rewrite Hv. cbn [py_truthy negb].
    unfold mbind at 1, lift at 1. cbn [py_getitem0 rbind]. rewrite Hid.
    reflexivity.
  - intros plan_id resp data Hp Hn Hs Hb Hv.
    eexists; split.
    + unfold get_tasks.
      unfold mbind at 1, enter at 1. rewrite Hp. cbn [negb].
      unfold mbind at 1. unfold mbind at 1.
      erewrite run_requests by exact Hn.
      rewrite Hs. cbn [Z.eqb Pos.eqb negb].
      unfold mbind at 1, lift at 1, response_json at 1.
      rewrite Hb. cbn [rbind]. rewrite Hv. reflexivity.
    + reflexivity.
  - intros plan_id Hp. unfold get_tasks.
    unfold mbind at 1, enter at 1. rewrite Hp. reflexivity.
  - intros plan_id. split; [reflexivity|].
    unfold tasks_of_plan, mbind, requests.
    destruct (net (sent s) (tasks_request self plan_id)) as [msg|resp] eqn:Hn.
    { do 2 eexists; split; [reflexivity|]. split; [reflexivity|].
      intros resp data tasks _ [=]. }
    destruct (status_code resp =? 200) eqn:Hst.
    2:{ do 2 eexists; split; [reflexivity|]. split; [reflexivity|].
        intros resp' data tasks _ [= <-] Hs'. rewrite Hs' in Hst. discriminate. }
    do 2 eexists; split; [reflexivity|]. split; [reflexivity|].
    intros resp' data tasks -> [= <-] _ Hb Hv Hwf.
    unfold lift, response_json. rewrite Hb. cbn [rbind]. rewrite Hv.
    cbn [rbind py_eq_str String.eqb Ascii.eqb Bool.eqb py_iter].
    rewrite (incomplete_filter Hwf). reflexivity.
Qed.

(** ** Failures of the remote side *)

Lemma trace0 (Q : list request -> request -> list request -> Prop) :
  forall pre r post, [] = pre ++ r :: post -> Q pre r post.
Proof. intros [|] ? ? [=]. Qed.

Lemma trace1 (Q : list request -> request -> list request -> Prop) r1 :
  Q [] r1 [] ->
  forall pre r post, [r1] = pre ++ r :: post -> Q pre r post.
Proof.
  intros H1 [|x pre] r post [= <- E]; [now subst|].
  destruct (trace0 (fun _ _ _ => False) _ _ _ E).
Qed.

Lemma trace2 (Q : list request -> request -> list request -> Prop) r1 r2 :
  Q [] r1 [r2] -> Q [r1] r2 [] ->
  forall pre r post, [r1; r2] = pre ++ r :: post -> Q pre r post.
Proof.
  intros H1 H2 [|x pre] r post [= <- E]; [now subst|].
  revert E. apply (trace1 (fun p => Q (r1 :: p))). exact H2.
Qed.

Lemma trace3 (Q : list request -> request -> list request -> Prop) r1 r2 r3 :
  Q [] r1 [r2; r3] -> Q [r1] r2 [r3] -> Q [r1; r2] r3 [] ->
  forall pre r post, [r1; r2; r3] = pre ++ r :: post -> Q pre r post.
Proof.
  intros H1 H2 H3 [|x pre] r post [= <- E]; [now subst|].
  revert E. apply (trace2 (fun p => Q (r1 :: p))); assumption.
Qed.

Ltac run_client_step :=
  match goal with
  | |- context [net ?l ?r] => destruct (net l r) as [?msg|?resp] eqn:?Hnet
  | |- context [status_code ?r =? ?c] =>
      destruct (status_code r =? c) eqn:?Hstatus; cbn [negb]
  | |- context [py_truthy ?x] => destruct (py_truthy x); cbn [negb]
  | |- context [match ?x with Return _ => _ | Raise _ => _ end] => destruct x
  end.

Ltac close_failure :=
  unfold stops_on_failure; rewrite ?app_nil_r; cbn [app];
  match goal with
  | H : net ?l ?r = _ |- context [net ?l ?r] => rewrite H
  end;
  first
    [ split; reflexivity
    | cbn; intros code Hcode Hne;
      first
        [ discriminate Hcode
        | injection Hcode as <-;
          first
            [ exfalso;
              match goal with
              | H : (status_code ?r =? ?c) = true |- _ =>
                  apply Z.eqb_eq in H; contradiction
              end
            | split; [reflexivity | eexists; reflexivity] ] ] ].

Lemma invoke_failures self c s res s' :
  invoke self c s = (res, s') ->
  exists new, sent s' = sent s ++ new /\
  forall pre r post, new = pre ++ r :: post ->
    stops_on_failure c res (sent s ++ pre) r post.
Proof.
  destruct c; cbn [invoke];
    unfold get_emails, send_email, get_tasks, tasks_of_plan, create_task,
           mbind, enter, lift, ret, requests;
    cbn [sent log_request log_call];
    repeat (run_client_step; cbv beta iota; cbn [sent log_request log_call]);
    intros [= <- <-];
    (eexists; split;
     [ cbn [sent log_request log_call]; rewrite <- ?app_assoc;
       first [ reflexivity | symmetry; apply app_nil_r ] |]).
  all: cbn [app].
  all: first [ apply trace0 | apply trace1 | apply trace2 | apply trace3 ].
  all: rewrite <- ?app_assoc in *; cbn [app] in *.
  all: close_failure.
Qed.

(** C3 (amended): a request that receives a status other than the one its
    operation expects (200 for a GET, 202 for the send-mail POST, 201 for the
    task-creation POST; the description PATCH expects none) is the last one of
    the call, and the operation returns a record with an ["error"] field.  A
    transport failure is not caught in the client: the request is the last
    one and the exception leaves the operation.  [execute_tool], one level
    up, never raises: it returns such an exception as the record
    [{"error": str(e)}]. *)
Theorem remote_failures self :
  (forall c s res s',
     invoke (m365 self) c s = (res, s') ->
     exists new, sent s' = sent s ++ new /\
     forall pre r post, new = pre ++ r :: post ->
       stops_on_failure c res (sent s ++ pre) r post) /\
  (forall function_name arguments s,
     exists tool_result s',
       execute_tool self function_name arguments s = (Return tool_result, s')) /\
  (forall tool_name parameters c s e s',
     corresponding_call tool_name parameters = Some c ->
     invoke (m365 self) c s = (Raise e, s') ->
     execute_tool self (JStr tool_name) parameters s
     = (Return (error_result (exn_str e)), s')).
Proof.
  split; [|split].
  - intros c s res s'; apply invoke_failures.
  - apply execute_tool_returns.
  - intros tool_name parameters c s e s' Hc Hi.
    rewrite (execute_tool_corresponding self _ _ Hc).
    unfold try_except. now rewrite Hi.
Qed.

(** ** Further properties of the client *)

Lemma base_params_of_unknown_filter limit f :
  f <> "unread" -> Str.startswith f "from:" = false ->
  emails_params limit (JStr f) = emails_params limit JNull.
Proof.
  intros Hu Hf. unfold emails_params.
  cbn [py_truthy py_eq_str py_startswith rbind negb].
  destruct (String.eqb f "") eqn:E0; [reflexivity|]. cbn [negb].
  destruct (String.eqb f "unread") eqn:E1.
  - apply String.eqb_eq in E1. contradiction.
  - now rewrite Hf.
Qed.

(** [get_emails] reads its state only through the requests issued so far. *)
Lemma get_emails_params_only self limit limit' f f' s :
  emails_params limit f = emails_params limit' f' ->
  fst (get_emails self limit f s) = fst (get_emails self limit' f' s) /\
  sent (snd (get_emails self limit f s)) = sent (snd (get_emails self limit' f' s)) /\
  conversation_history (snd (get_emails self limit f s))
  = conversation_history (snd (get_emails self limit' f' s)).
Proof.
  intros H. unfold get_emails, mbind, enter, lift, ret, requests. rewrite H.
  destruct (emails_params limit' f') as [params|e]; [|repeat split].
  cbn [sent log_call].
  destruct (net (sent s) (emails_request self params)) as [msg|resp];
    [repeat split|].
  destruct (status_code resp =? 200); repeat split.
Qed.

(** X1: a filter text that is neither ["unread"] nor starts with ["from:"]
    is ignored by [get_emails]: the call returns what it returns without a
    filter and issues the same requests. *)
Theorem unknown_email_filter_ignored self limit f s :
  f <> "unread" -> Str.startswith f "from:" = false ->
  fst (get_emails self limit (JStr f) s) = fst (get_emails self limit JNull s) /\
  sent (snd (get_emails self limit (JStr f) s))
  = sent (snd (get_emails self limit JNull s)).
Proof.
  intros Hu Hf.
  destruct (get_emails_params_only self limit limit (JStr f) JNull s
              (base_params_of_unknown_filter limit Hu Hf)) as (H1 & H2 & _).
  now split.
Qed.

(** X2: a filter that is not a text and is not falsy (a number, a list, an
    object) makes [get_emails] raise an [AttributeError] before any request
    is issued. *)
Theorem email_filter_not_text self limit f s :
  py_truthy f = true -> (forall t, f <> JStr t) ->
  exists s',
    get_emails self limit f s
    = (Raise (mk_exn AttributeError
                ("'" ++ type_name f ++ "' object has no attribute 'startswith'")),
       s') /\
    sent s' = sent s.
Proof.
  intros Ht Hn. exists (log_call (Call_get_emails limit f) s).
  split; [|reflexivity].
  unfold get_emails, mbind, enter, lift, emails_params. rewrite Ht.
  destruct f as [| | | |t| |]; try reflexivity; try discriminate Ht.
  destruct (Hn t eq_refl).
Qed.

Lemma take_length n s : (String.length (Str.take n s) <= n)%nat.
Proof.
  unfold Str.take. revert s; induction n as [|n IH]; intros [|c s]; cbn;
    try lia.
  specialize (IH s). lia.
Qed.

Lemma chars_length s : List.length (Str.chars s) = String.length s.
Proof. induction s; cbn; congruence. Qed.

(** [len(v)] is the number of elements [for x in v] visits. *)
Lemma len_iter v n items :
  py_len v = Return n -> py_iter v = Return items ->
  n = JInt (Z.of_nat (List.length items)).
Proof.
  destruct v; cbn; try discriminate; intros [= <-] [= <-];
    now rewrite ?length_map, ?chars_length.
Qed.

Lemma rmap_Forall {A B} (f : A -> result B) (P : B -> Prop) l l' :
  (forall x y, f x = Return y -> P y) ->
  rmap f l = Return l' ->
  List.length l' = List.length l /\ Forall P l'.
Proof.
  intros Hf. revert l'; induction l as [|x l IH]; cbn; intros l'.
  - intros [= <-]. split; [reflexivity | constructor].
  - destruct (f x) as [y|e] eqn:Ex; [|discriminate]. cbn.
    destruct (rmap f l) as [ys|e]; [|discriminate]. cbn.
    intros [= <-]. destruct (IH ys eq_refl) as [Hl HP].
    split; [cbn; congruence | constructor; eauto].
Qed.

Lemma slice_short n p q :
  py_slice_to n p = Return q ->
  match q with
  | JStr t => (String.length t <= n)%nat
  | JList l => (List.length l <= n)%nat
  | _ => False
  end.
Proof.
  destruct p; cbn; try discriminate; intros [= <-].
  - apply take_length.
  - apply firstn_le_length.
Qed.

Lemma email_summary_shape email y :
  email_summary email = Return y -> is_email_summary y.
Proof.
  unfold email_summary.
  repeat match goal with
         | |- context [rbind ?x _] =>
             let E := fresh "E" in destruct x eqn:E; cbn [rbind]; try discriminate
         end.
  intros [= <-]. do 5 eexists. split; [reflexivity|].
  match goal with
  | H : py_slice_to 100 ?p = Return _ |- _ => exact (slice_short _ _ H)
  end.
Qed.

(** X3: whatever [get_emails] returns without raising is an error record or
    a record whose ["count"] is the number of summaries in ["emails"]; every
    summary has the five fields and a preview of at most 100 characters. *)
Theorem get_emails_result_shape self limit filter_str s v s' :
  get_emails self limit filter_str s = (Return v, s') ->
  (exists msg, v = error_result msg) \/
  (exists summaries,
     v = JDict [("count", JInt (Z.of_nat (List.length summaries)));
                ("emails", JList summaries)] /\
     Forall is_email_summary summaries).
Proof.
  unfold get_emails, mbind, enter, lift, ret, requests.
  destruct (emails_params limit filter_str) as [params|e]; [|discriminate].
  destruct (net _ _) as [msg|resp]; [discriminate|].
  destruct (status_code resp =? 200).
  2:{ intros [= <- _]. left; eauto. }
  destruct (response_json resp) as [data|e]; [|discriminate]. cbn [rbind].
  destruct (py_get data "value" (JList [])) as [emails|e]; [|discriminate].
  cbn [rbind].
  destruct (py_len emails) as [count|e] eqn:Hlen; [|discriminate]. cbn [rbind].
  destruct (py_iter emails) as [items|e] eqn:Hiter; [|discriminate]. cbn [rbind].
  destruct (rmap email_summary items) as [summaries|e] eqn:Hmap; [|discriminate].
  cbn [rbind]. intros [= <- _]. right. exists summaries.
  destruct (rmap_Forall _ is_email_summary _ email_summary_shape Hmap)
    as [Hl Hs].
  split; [|exact Hs].
  now rewrite (len_iter _ Hlen Hiter), Hl.
Qed.

(** X4: the requests of a method call follow its protocol.  [get_emails]
    issues at most one GET, [get_tasks] at most two GETs, [send_email]
    exactly one POST, and [create_task] a GET, then a POST, then a PATCH,
    stopping anywhere: the methods of the requests issued, in order, are an
    initial segment of the protocol.  So the two listing operations never
    write. *)
Theorem request_methods self c s res s' :
  invoke self c s = (res, s') ->
  exists new rest,
    sent s' = sent s ++ new /\
    protocol c = map req_method new ++ rest /\
    (forall to subject body, c = Call_send_email to subject body -> rest = []).
Proof.
  destruct c; cbn [invoke protocol];
    unfold get_emails, send_email, get_tasks, tasks_of_plan, create_task,
           mbind, enter, lift, ret, requests;
    cbn [sent log_request log_call];
    repeat (run_client_step; cbv beta iota; cbn [sent log_request log_call]);
    intros [= <- <-];
    cbn [sent log_request log_call]; rewrite <- ?app_assoc; cbn [app].
  all: first
    [ exists [], [GET]; split; [now rewrite app_nil_r|];
      split; [reflexivity | discriminate]
    | exists [], [GET; GET]; split; [now rewrite app_nil_r|];
      split; [reflexivity | discriminate]
    | exists [], [GET; POST; PATCH]; split; [now rewrite app_nil_r|];
      split; [reflexivity | discriminate]
    | eexists [_], _; split; [reflexivity|];
      split; [reflexivity | first [discriminate | reflexivity]]
    | eexists [_; _], _; split; [reflexivity|];
      split; [reflexivity | discriminate]
    | eexists [_; _; _], _; split; [reflexivity|];
      split; [reflexivity | discriminate] ].
Qed.

(** X5: [send_email] always issues exactly its one POST, and it reports
    success exactly when the answer has status 202: any other status, 200
    included, gives the error record that names the status. *)
Theorem send_email_success_iff_202 self to subject body s res s' :
  send_email self to subject body s = (res, s') ->
  sent s' = sent s ++ [send_request self to subject body] /\
  (res = Return (JDict [("status", JStr "success");
                        ("message", JStr ("Email sent to " ++ py_str to))])
   <-> exists resp,
         net (sent s) (send_request self to subject body) = inr resp /\
         status_code resp = 202) /\
  (forall resp,
     net (sent s) (send_request self to subject body) = inr resp ->
     status_code resp <> 202 ->
     res = Return (error_result ("Failed to send email: "
                                   ++ Str.of_Z (status_code resp)))).
Proof.
  unfold send_email, mbind, enter, ret, requests. cbn [sent log_call].
  destruct (net (sent s) (send_request self to subject body)) as [msg|resp].
  { intros [= <- <-]. split; [reflexivity|].
    split; [split; [discriminate | intros (r & [=] & _)] | intros r [=]]. }
  destruct (status_code resp =? 202) eqn:Hst; intros [= <- <-];
    (split; [reflexivity|]).
  - apply Z.eqb_eq in Hst. split; [split; [eauto | reflexivity]|].
    intros r [= <-] H. contradiction.
  - apply Z.eqb_neq in Hst. split.
    + split; [discriminate|]. intros (r & [= <-] & H). contradiction.
    + intros r [= <-] _. reflexivity.
Qed.

(** [tasks_of_plan] looks at the filter only to compare it with
    ["incomplete"], and at the state only for the requests issued so far. *)
Lemma tasks_of_plan_filter_only self plan_id f f' s t :
  py_eq_str f "incomplete" = py_eq_str f' "incomplete" ->
  sent s = sent t ->
  fst (tasks_of_plan self plan_id f s) = fst (tasks_of_plan self plan_id f' t) /\
  sent (snd (tasks_of_plan self plan_id f s))
  = sent (snd (tasks_of_plan self plan_id f' t)).
Proof.
  intros Hf Hs. unfold tasks_of_plan, mbind, lift, ret, requests.
  rewrite Hf, Hs.
  destruct (net (sent t) (tasks_request self plan_id)) as [msg|resp];
    cbn [fst snd sent log_request]; [now rewrite Hs|].
  destruct (status_code resp =? 200); cbn [fst snd sent log_request];
    now rewrite Hs.
Qed.

(** X6: [get_tasks] knows one filter, ["incomplete"].  Any other filter
    value (such as the ["due_soon"] that the tool catalogue advertises) is
    ignored: the call returns what it returns without a filter and issues
    the same requests. *)
Theorem other_task_filter_ignored self plan_id f s :
  py_eq_str f "incomplete" = false ->
  fst (get_tasks self plan_id f s) = fst (get_tasks self plan_id JNull s) /\
  sent (snd (get_tasks self plan_id f s))
  = sent (snd (get_tasks self plan_id JNull s)).
Proof.
  intros Hf. unfold get_tasks, mbind, enter, lift, ret, requests.
  destruct (py_truthy plan_id); cbn [negb sent].
  - apply tasks_of_plan_filter_only; [exact Hf | reflexivity].
  - destruct (net (sent s) (plans_request self)) as [msg|resp];
      [split; reflexivity|].
    destruct (status_code resp =? 200); cbn [negb sent]; [|split; reflexivity].
    destruct (rbind (response_json resp) _) as [plans|e]; [|split; reflexivity].
    destruct (py_truthy plans); cbn [negb sent]; [|split; reflexivity].
    destruct (rbind (py_getitem0 plans) _) as [first|e]; [|split; reflexivity].
    apply tasks_of_plan_filter_only; [exact Hf | reflexivity].
Qed.

(** X7: when the [incomplete] comprehension succeeds, every task listed had
    a numeric [percentComplete], the tasks kept are those below 100 in their
    order, they are no more than the tasks listed, and filtering them again
    changes nothing. *)
Theorem incomplete_sound tasks kept :
  incomplete tasks = Return kept ->
  Forall has_percent tasks /\
  kept = filter below_100 tasks /\
  (List.length kept <= List.length tasks)%nat /\
  incomplete kept = Return kept.
Proof.
  intros H.
  assert (Hwf : Forall has_percent tasks).
  { revert kept H. induction tasks as [|t tasks IH]; intros kept H;
      [constructor|].
    cbn [incomplete] in H.
    destruct (py_getitem t "percentComplete") as [pc|e] eqn:Hpc;
      [|discriminate]. cbn [rbind] in H.
    destruct (py_lt_100 pc) as [b|e] eqn:Hb; [|discriminate]. cbn [rbind] in H.
    destruct (incomplete tasks) as [k|e]; [|discriminate].
    constructor; [exists pc, b; now split | eapply IH; reflexivity]. }
  split; [exact Hwf|].
  rewrite (incomplete_filter Hwf) in H. injection H as <-.
  split; [reflexivity|]. split; [apply filter_length_le|].
  rewrite incomplete_filter.
  - f_equal. clear Hwf. induction tasks as [|t tasks IH]; [reflexivity|].
    cbn [filter]. destruct (below_100 t) eqn:E; [|exact IH].
    cbn [filter]. rewrite E. now f_equal.
  - apply Forall_forall. intros t Ht. apply filter_In in Ht as [Ht _].
    now apply (proj1 (Forall_forall _ _) Hwf).
Qed.

Lemma task_summary_shape t y : task_summary t = Return y -> is_task_summary y.
Proof.
  unfold task_summary.
  repeat match goal with
         | |- context [rbind ?x _] =>
             let E := fresh "E" in destruct x eqn:E; cbn [rbind]; try discriminate
         end.
  intros [= <-]. do 5 eexists. reflexivity.
Qed.

Lemma tasks_result_shape plan_id tasks v :
  tasks_result plan_id tasks = Return v ->
  exists summaries,
    v = JDict [("count", JInt (Z.of_nat (List.length summaries)));
               ("plan_id", plan_id); ("tasks", JList summaries)] /\
    Forall is_task_summary summaries.
Proof.
  unfold tasks_result.
  destruct (py_len tasks) as [count|e] eqn:Hlen; [|discriminate]. cbn [rbind].
  destruct (py_iter tasks) as [items|e] eqn:Hiter; [|discriminate]. cbn [rbind].
  destruct (rmap task_summary items) as [summaries|e] eqn:Hmap; [|discriminate].
  cbn [rbind]. intros [= <-]. exists summaries.
  destruct (rmap_Forall _ is_task_summary _ task_summary_shape Hmap) as [Hl Hs].
  split; [|exact Hs].
  now rewrite (len_iter _ Hlen Hiter), Hl.
Qed.

(** X8: whatever [get_tasks] returns without raising is an error record or
    a record with the plan id used, the summaries of the tasks and their
    number as ["count"]; every summary has the five fields. *)
Theorem get_tasks_result_shape self plan_id filter_str s v s' :
  get_tasks self plan_id filter_str s = (Return v, s') ->
  (exists msg, v = error_result msg) \/
  (exists used summaries,
     v = JDict [("count", JInt (Z.of_nat (List.length summaries)));
                ("plan_id", used); ("tasks", JList summaries)] /\
     Forall is_task_summary summaries).
Proof.
  assert (Htasks : forall p t,
            tasks_of_plan self p filter_str t = (Return v, s') ->
            (exists msg, v = error_result msg) \/
            (exists used summaries,
               v = JDict [("count", JInt (Z.of_nat (List.length summaries)));
                          ("plan_id", used); ("tasks", JList summaries)] /\
               Forall is_task_summary summaries)).
  { intros p t. unfold tasks_of_plan, mbind, lift, ret, requests.
    destruct (net _ _) as [msg|resp]; [discriminate|].
    destruct (status_code resp =? 200); [|intros [= <- _]; left; eauto].
    destruct (response_json resp) as [data|e]; [|discriminate]. cbn [rbind].
    destruct (py_get data "value" (JList [])) as [tasks|e]; [|discriminate].
    cbn [rbind].
    match goal with |- context [rbind ?x _] =>
      destruct x as [filtered|e]; [|discriminate] end.
    cbn [rbind].
    destruct (tasks_result p filtered) as [w|e] eqn:Hres; [|discriminate].
    intros [= <- _]. right. exists p. exact (tasks_result_shape _ _ Hres). }
  unfold get_tasks, mbind, enter, lift, ret, requests. cbn [sent log_call].
  destruct (py_truthy plan_id); cbn [negb]; cbv beta iota; [apply Htasks|].
  cbn [sent].
  destruct (net (sent s) (plans_request self)) as [msg|resp]; [discriminate|].
  destruct (status_code resp =? 200); cbn [negb]; cbv beta iota;
    [|intros [= <- _]; left; eauto].
  destruct (rbind (response_json resp) _) as [plans|e]; [|discriminate].
  destruct (py_truthy plans); cbn [negb]; cbv beta iota;
    [|intros [= <- _]; left; eauto].
  destruct (rbind (py_getitem0 plans) _) as [first|e]; [|discriminate].
  apply Htasks.
Qed.

(** X9: without a description (none, or an empty one) [create_task] never
    sends the PATCH; after a bucket was found and the POST answered 201 with
    a task that has an id and a title, it returns success with two requests
    issued. *)
Theorem create_task_without_description
    self plan_id title description due_date s :
  py_truthy description = false ->
  (forall res s',
     create_task self plan_id title description due_date s = (res, s') ->
     exists new, sent s' = sent s ++ new /\
                 Forall (fun r => req_method r <> PATCH) new) /\
  (forall resp1 data buckets bucket_id resp2 task id task_title,
     net (sent s) (buckets_request self plan_id) = inr resp1 ->
     status_code resp1 = 200 ->
     body resp1 = Some data ->
     py_get data "value" (JList []) = Return buckets ->
     py_truthy buckets = true ->
     (bucket <~ py_getitem0 buckets ;; py_getitem bucket "id") = Return bucket_id ->
     net (sent s ++ [buckets_request self plan_id])
         (create_request self plan_id bucket_id title due_date) = inr resp2 ->
     status_code resp2 = 201 ->
     body resp2 = Some task ->
     py_getitem task "id" = Return id ->
     py_getitem task "title" = Return task_title ->
     exists s',
       create_task self plan_id title description due_date s
       = (Return (JDict [("status", JStr "success"); ("task_id", id);
                         ("title", task_title)]), s') /\
       sent s' = sent s ++ [buckets_request self plan_id;
                            create_request self plan_id bucket_id title due_date]).
Proof.
  intros Hd. split.
  - intros res s'.
    unfold create_task, mbind, enter, lift, ret, requests. rewrite Hd.
    cbn [sent log_request log_call].
    repeat (run_client_step; cbv beta iota; cbn [sent log_request log_call]);
      intros [= <- <-]; cbn [sent log_request log_call];
      rewrite <- ?app_assoc; cbn [app];
      first [ exists []; split; [now rewrite app_nil_r | constructor]
            | eexists; split; [reflexivity|];
              repeat (constructor; [cbn; discriminate|]); constructor ].
  - intros resp1 data buckets bucket_id resp2 task id task_title
           Hn1 Hs1 Hb1 Hval Hbk Hid Hn2 Hs2 Hb2 Htid Htt.
    eexists; split.
    + unfold create_task.
      unfold mbind at 1, enter at 1.
      erewrite run_bind by (apply run_requests; exact Hn1).
      rewrite Hs1. cbn [Z.eqb Pos.eqb negb].
      unfold mbind at 1, lift at 1, response_json at 1.
      rewrite Hb1. cbn [rbind]. rewrite Hval, Hbk. cbn [negb].
      unfold mbind at 1, lift at 1. rewrite Hid.
      erewrite run_bind by (apply run_requests; exact Hn2).
      rewrite Hs2. cbn [Z.eqb Pos.eqb].
      unfold mbind at 1, lift at 1, response_json at 1. rewrite Hb2.
      rewrite Hd. unfold mbind at 1, ret at 1. unfold lift.
      rewrite Htid. cbn [rbind]. rewrite Htt. reflexivity.
    + cbn [sent log_request log_call]. now rewrite <- !app_assoc.
Qed.

(** X10: when the POST answered 201 but the task in the answer has no
    ["id"], [create_task] raises [KeyError('id')] although the task was
    created remotely; the description PATCH is not sent. *)
Theorem created_task_without_id
    self plan_id title description due_date s
    resp1 data buckets bucket_id resp2 fields :
  net (sent s) (buckets_request self plan_id) = inr resp1 ->
  status_code resp1 = 200 ->
  body resp1 = Some data ->
  py_get data "value" (JList []) = Return buckets ->
  py_truthy buckets = true ->
  (bucket <~ py_getitem0 buckets ;; py_getitem bucket "id") = Return bucket_id ->
  net (sent s ++ [buckets_request self plan_id])
      (create_request self plan_id bucket_id title due_date) = inr resp2 ->
  status_code resp2 = 201 ->
  body resp2 = Some (JDict fields) ->
  Dict.get fields "id" = None ->
  exists s',
    create_task self plan_id title description due_date s
    = (Raise (mk_exn KeyError "'id'"), s') /\
    sent s' = sent s ++ [buckets_request self plan_id;
                         create_request self plan_id bucket_id title due_date].
Proof.
  intros Hn1 Hs1 Hb1 Hval Hbk Hid Hn2 Hs2 Hb2 Hno.
  eexists; split.
  - unfold create_task.
    unfold mbind at 1, enter at 1.
    erewrite run_bind by (apply run_requests; exact Hn1).
    rewrite Hs1. cbn [Z.eqb Pos.eqb negb].
    unfold mbind at 1, lift at 1, response_json at 1.
    rewrite Hb1. cbn [rbind]. rewrite Hval, Hbk. cbn [negb].
    unfold mbind at 1, lift at 1. rewrite Hid.
    erewrite run_bind by (apply run_requests; exact Hn2).
    rewrite Hs2. cbn [Z.eqb Pos.eqb].
    unfold mbind at 1, lift at 1, response_json at 1. rewrite Hb2.
    unfold mbind, lift, ret. cbn [py_getitem]. rewrite Hno.
    destruct (py_truthy description); reflexivity.
  - cbn [sent log_request log_call]. now rewrite <- !app_assoc.
Qed.

(** ** Further properties of the assistant *)

(** X11: whatever tool is named and whatever the parameters are,
    [execute_tool] leaves the conversation history alone, and every request
    it issues carries the bearer token of the client and the JSON content
    type. *)
Theorem execute_tool_bearer self function_name arguments s res s' :
  execute_tool self function_name arguments s = (res, s') ->
  conversation_history s' = conversation_history s /\
  exists new,
    sent s' = sent s ++ new /\
    Forall (fun r => req_headers r = Some (bearer_headers (m365 self))) new.
Proof. intros H. exact (execute_tool_remote _ _ _ _ H). Qed.

(** X12: a directive that names a supported tool but whose parameters are
    not a mapping, or lack an argument the operation requires, yields an
    error record without anything being contacted: no request is issued and
    no client method entered. *)
Theorem execute_tool_bad_arguments self tool_name parameters s :
  supported tool_name = true ->
  corresponding_call tool_name parameters = None ->
  exists msg,
    execute_tool self (JStr tool_name) parameters s
    = (Return (error_result msg), s).
Proof.
  unfold supported, corresponding_call, execute_tool, try_except, mbind, lift.
  cbn [py_eq_str].
  intros Hs Hc.
  destruct (String.eqb tool_name "get_emails").
  { destruct parameters; try discriminate Hc; eexists; reflexivity. }
  destruct (String.eqb tool_name "send_email").
  { destruct parameters as [| | | | | |p];
      try (eexists; reflexivity).
    cbn [py_getitem].
    destruct (Dict.get p "to"); [|eexists; reflexivity].
    destruct (Dict.get p "subject"); [|eexists; reflexivity].
    destruct (Dict.get p "body"); [discriminate Hc|eexists; reflexivity]. }
  destruct (String.eqb tool_name "get_tasks").
  { destruct parameters; try discriminate Hc; eexists; reflexivity. }
  destruct (String.eqb tool_name "create_task"); [|discriminate Hs].
  destruct parameters as [| | | | | |p]; try (eexists; reflexivity).
  cbn [py_getitem].
  destruct (Dict.get p "plan_id"); [|eexists; reflexivity].
  destruct (Dict.get p "title"); [discriminate Hc|eexists; reflexivity].
Qed.

Lemma lstrip_head s :
  Str.lstrip s = "" \/
  exists c s', Str.lstrip s = String c s' /\ Str.isspace c = false.
Proof.
  induction s as [|c s IH]; [now left|]. cbn [Str.lstrip].
  destruct (Str.isspace c) eqn:E; [exact IH|]. right; eauto.
Qed.

Lemma rstrip_idempotent s : Str.rstrip (Str.rstrip s) = Str.rstrip s.
Proof.
  induction s as [|c s IH]; [reflexivity|]. cbn [Str.rstrip].
  destruct (Str.rstrip s) as [|c' r] eqn:E.
  - destruct (Str.isspace c) eqn:Ec; [reflexivity|].
    cbn [Str.rstrip]. now rewrite Ec.
  - cbn [Str.rstrip]. cbn [Str.rstrip] in IH.
    destruct (match Str.rstrip r with
              | "" => if Str.isspace c' then "" else String c' ""
              | String a s0 => String c' (String a s0)
              end) eqn:E'; [discriminate IH|].
    now rewrite IH.
Qed.

Lemma rstrip_keeps_head c s :
  Str.isspace c = false ->
  Str.rstrip (String c s) = String c (Str.rstrip s).
Proof.
  intros Hc. cbn [Str.rstrip]. destruct (Str.rstrip s); [now rewrite Hc|reflexivity].
Qed.

Lemma strip_idempotent s : Str.strip (Str.strip s) = Str.strip s.
Proof.
  unfold Str.strip.
  destruct (lstrip_head s) as [->|(c & s' & -> & Hc)]; [reflexivity|].
  rewrite rstrip_keeps_head by exact Hc. cbn [Str.lstrip]. rewrite Hc.
  rewrite rstrip_keeps_head by exact Hc. now rewrite rstrip_idempotent.
Qed.

(** X13: the classification of a response does not depend on the
    whitespace around it: [_is_tool_call] gives the same answer on a text
    and on the text trimmed; on a response that is not a text it raises an
    [AttributeError]. *)
Theorem is_tool_call_trimmed :
  (forall R, _is_tool_call (JStr R) = _is_tool_call (JStr (Str.strip R))) /\
  (forall v, (forall t, v <> JStr t) ->
             _is_tool_call v
             = Raise (mk_exn AttributeError
                        ("'" ++ type_name v ++ "' object has no attribute 'strip'"))).
Proof.
  split.
  - intros R. unfold _is_tool_call. cbn [py_strip rbind].
    now rewrite strip_idempotent.
  - intros v Hv. destruct v; try reflexivity. destruct (Hv s eq_refl).
Qed.

(** X14: [_call_ollama] issues exactly one request, the chat request for
    the messages, and it returns [c] exactly when the answer has status 200
    and a JSON body whose ["message"]["content"] is [c]. *)
Theorem call_ollama_returns_iff self messages s c :
  (exists s', _call_ollama self messages s = (Return c, s')) <->
  (exists resp data msg,
     net (sent s) (chat_request self messages) = inr resp /\
     status_code resp = 200 /\
     body resp = Some data /\
     py_getitem data "message" = Return msg /\
     py_getitem msg "content" = Return c).
Proof.
  unfold _call_ollama, mbind, requests, lift, raise, response_json.
  split.
  - intros [s' H].
    destruct (net (sent s) (chat_request self messages)) as [m|resp] eqn:Hn;
      [discriminate|].
    destruct (status_code resp =? 200) eqn:Hst; [|discriminate].
    destruct (body resp) as [data|] eqn:Hb; [|discriminate]. cbn [rbind] in H.
    destruct (py_getitem data "message") as [msg|e] eqn:Hm; [|discriminate].
    cbn [rbind] in H.
    destruct (py_getitem msg "content") as [c'|e] eqn:Hc; [|discriminate].
    injection H as <- _. apply Z.eqb_eq in Hst.
    exists resp, data, msg. repeat split; try assumption; reflexivity.
  - intros (resp & data & msg & -> & Hst & Hb & Hm & Hc).
    rewrite Hst, Hb. cbn [Z.eqb Pos.eqb rbind]. rewrite Hm. cbn [rbind].
    rewrite Hc. eexists; reflexivity.
Qed.

(** X15: a failure of the remote API never ends a turn with an exception.
    When [process_request] raises, the exception was raised by one of its
    two completion calls, or the completion service answered something that
    is not a text.  [Hobj] and [Hstrip] are facts of the JSON grammar: a text
    that starts with a brace decodes to an object, and a text that decodes
    also decodes, to the same value, once trimmed. *)
Theorem turn_fails_only_on_completion
    (Hobj : forall t v, Str.startswith t "{" = true ->
                        json_loads t = Some v -> exists d, v = JDict d)
    (Hstrip : forall t v, json_loads t = Some v ->
                          json_loads (Str.strip t) = Some v)
    self u s e s' :
  process_request self u s = (Raise e, s') ->
  first_completion self u s = (Raise e, s') \/
  (exists v, first_completion self u s = (Return v, s') /\
             (forall t, v <> JStr t) /\ exn_kind e = AttributeError) \/
  (exists t, _call_ollama self (JList (system_message :: conversation_history t)) t
             = (Raise e, s') /\
             sent t <> sent s).
Proof.
  intros H. rewrite process_request_unfold in H.
  destruct (first_completion self u s) as [[R|e1] s1] eqn:H1;
    [|left; exact H].
  destruct (first_completion_history _ _ _ H1) as (_ & _ & Hs1).
  destruct R as [| | | |R| |];
    try (right; left; injection H as <- <-; eexists; split; [reflexivity|];
         split; [discriminate | reflexivity]).
  rewrite is_tool_call_str in H.
  destruct (brace_shaped R) eqn:Hb; [|discriminate H]. cbn [andb] in H.
  match type of H with
  | (if ?b then _ else _) = _ => destruct b eqn:Hc; [|discriminate H]
  end.
  rewrite tool_round_trip_unfold in H.
  unfold parse_directive, loads in H.
  destruct (json_loads R) as [v|] eqn:Hl; [|discriminate H].
  apply Hstrip in Hl.
  unfold brace_shaped in Hb. apply andb_prop in Hb as [Hb _].
  destruct (Hobj _ _ Hb Hl) as [d ->].
  cbn [rbind py_get] in H.
  match type of H with
  | context [execute_tool self ?n ?p s1] =>
      destruct (execute_tool_returns self n p s1) as (w & s2 & He);
      rewrite He in H;
      destruct (execute_tool_remote _ _ _ _ He) as (_ & api & Hs2 & _)
  end.
  cbv zeta in H.
  match type of H with
  | context [_call_ollama self ?m ?t] =>
      destruct (_call_ollama self m t) as [[F|e2] s4] eqn:H2;
      [discriminate H|]
  end.
  right; right.
  destruct (exn_kind e2); try discriminate H; injection H as <- <-;
    (eexists; split; [exact H2|]); cbn [sent with_tool_messages push];
    rewrite Hs2, Hs1, <- app_assoc; intros Habs;
    apply (f_equal (@List.length request)) in Habs;
    rewrite !length_app in Habs; cbn in Habs; lia.
Qed.

(** ** The interactive shell and the construction *)

Lemma exit_word_iff line :
  existsb (String.eqb (Str.lower (Str.strip line))) ["exit"; "quit"] = true
  <-> is_exit line.
Proof.
  unfold is_exit. cbn [existsb]. rewrite orb_false_r, orb_true_iff.
  now rewrite !String.eqb_eq.
Qed.

Lemma clear_word_iff line :
  String.eqb (Str.lower (Str.strip line)) "clear" = true <-> is_clear line.
Proof. unfold is_clear. apply String.eqb_eq. Qed.

Lemma blank_iff line : String.eqb (Str.strip line) "" = true <-> is_blank line.
Proof. unfold is_blank. apply String.eqb_eq. Qed.

(** Every turn issues a request. *)
Lemma turn_sends self u s res s' :
  process_request self u s = (res, s') ->
  exists rest,
    sent s' = sent s ++ completion self (conversation_history s ++ [user_message u])
                :: rest.
Proof.
  intros H. destruct (turn_shape _ _ _ H) as [Hp|Ht].
  - destruct Hp as (tail & Hs & _). exists []. exact Hs.
  - destruct Ht as (api & n & v & tail & Hs & _). eexists. exact Hs.
Qed.

Lemma app_cons_not_nil {A} (l rest : list A) x : l ++ x :: rest = l -> False.
Proof.
  intros H. apply (f_equal (@List.length A)) in H.
  rewrite length_app in H. cbn in H. lia.
Qed.



(** X17: a round of the shell contacts the completion service exactly when
    the line is neither blank nor one of the words [exit], [quit] and
    [clear]; a blank line changes nothing at all. *)
Theorem main_step_sends_iff self line s :
  (sent (snd (main_step self line s)) = sent s
   <-> is_exit line \/ is_clear line \/ is_blank line) /\
  (is_blank line -> main_step self line s = ((Continue, []), s)).
Proof.
  unfold main_step.
  destruct (existsb _ _) eqn:E.
  { apply exit_word_iff in E. split; [split; auto|].
    intros Hb. exfalso. unfold is_exit, is_blank in *.
    rewrite Hb in E. cbn in E. destruct E; discriminate. }
  assert (Hn : ~ is_exit line).
  { intros H. apply exit_word_iff in H. congruence. }
  destruct (String.eqb (Str.lower (Str.strip line)) "clear") eqn:Ec.
  { apply clear_word_iff in Ec. split; [split; auto|].
    intros Hb. exfalso. unfold is_clear, is_blank in *.
    rewrite Hb in Ec. discriminate. }
  assert (Hnc : ~ is_clear line).
  { intros H. apply clear_word_iff in H. congruence. }
  destruct (String.eqb (Str.strip line) "") eqn:Eb.
  { apply blank_iff in Eb. split; [split; auto | reflexivity]. }
  assert (Hnb : ~ is_blank line).
  { intros H. apply blank_iff in H. congruence. }
  split; [|intros H; contradiction].
  destruct (process_request self (Str.strip line) s) as [[r|e] s'] eqn:Hp;
    destruct (turn_sends _ _ _ Hp) as [rest Hs]; cbn [snd];
    (split; [intros H; rewrite Hs in H; apply app_cons_not_nil in H; destruct H
            | intros [H|[H|H]]; contradiction]).
Qed.

(** X18: the word [clear] empties the history without contacting anything,
    and the completion call of the next turn carries the fresh system
    message and the new user message only. *)
Theorem clear_then_turn self l1 l2 s :
  is_clear l1 ->
  ~ is_exit l2 -> ~ is_clear l2 -> ~ is_blank l2 ->
  main_step self l1 s
  = ((Continue, [HistoryCleared]), mk_state [] (sent s) (api_calls s)) /\
  exists rest,
    sent (snd (main_step self l2 (snd (main_step self l1 s))))
    = sent s ++ chat_request self
                  (JList [system_message; user_message (Str.strip l2)])
          :: rest.
Proof.
  intros Hc Hne Hnc Hnb.
  assert (H1 : main_step self l1 s
               = ((Continue, [HistoryCleared]), mk_state [] (sent s) (api_calls s))).
  { unfold main_step. unfold is_clear in Hc. rewrite Hc. reflexivity. }
  split; [exact H1|]. rewrite H1. cbn [snd].
  unfold main_step.
  destruct (existsb _ _) eqn:E; [apply exit_word_iff in E; contradiction|].
  destruct (String.eqb (Str.lower (Str.strip l2)) "clear") eqn:Ec;
    [apply clear_word_iff in Ec; contradiction|].
  destruct (String.eqb (Str.strip l2) "") eqn:Eb;
    [apply blank_iff in Eb; contradiction|].
  destruct (process_request self (Str.strip l2) _) as [[r|e] s'] eqn:Hp;
    destruct (turn_sends _ _ _ Hp) as [rest Hs]; cbn [snd];
    exists rest; exact Hs.
Qed.

Lemma missing_vars_spec getenv var :
  In var (missing_vars getenv) <->
  In var required_vars /\ (getenv var = None \/ getenv var = Some "").
Proof.
  unfold missing_vars. rewrite filter_In.
  split; intros [Hin H]; (split; [exact Hin|]).
  - destruct (getenv var) as [value|]; [|now left].
    apply String.eqb_eq in H. right. now subst.
  - destruct H as [->| ->]; reflexivity.
Qed.

(** X20: [main] starts no session when one of the three credentials is
    unset or empty: it reports exactly the credentials that are unset or
    empty, builds no assistant, contacts nothing and returns. *)
Theorem main_refuses_missing_variables
    getenv model url silent for_client lines s var :
  In var required_vars ->
  getenv var = None \/ getenv var = Some "" ->
  main getenv model url silent for_client lines s
  = (([MissingVariables (String.concat ", " (missing_vars getenv))], Return tt), s) /\
  (forall v, In v (missing_vars getenv) <->
             In v required_vars /\ (getenv v = None \/ getenv v = Some "")).
Proof.
  intros Hin Hv.
  assert (Hm : In var (missing_vars getenv))
    by (apply missing_vars_spec; now split).
  split.
  - unfold main. destruct (missing_vars getenv); [destruct Hm | reflexivity].
  - intros v. apply missing_vars_spec.
Qed.

(** X21: a failed authentication is fatal.  With the three credentials set,
    when token acquisition fails [main] ends with that exception, having
    printed only the start-up line: no request is issued and no line is
    read. *)
Theorem authentication_failure_is_fatal
    getenv model url silent for_client lines s e :
  missing_vars getenv = [] ->
  _authenticate silent for_client = Raise e ->
  main getenv model url silent for_client lines s
  = (([Initializing model], Raise e), s).
Proof.
  intros Hm Ha. unfold main. rewrite Hm.
  unfold PersonalAssistant__init__, M365Client__init__, mbind, lift.
  now rewrite Ha.
Qed.

(** X22: the connection test of the constructor is never fatal.  Once the
    token is there, [PersonalAssistant(...)] always returns the assistant,
    with an empty history, after exactly one GET of [/api/tags]; it prints
    a warning exactly when that request did not answer 200. *)
Theorem connection_test_never_fatal model url silent for_client s access_token :
  _authenticate silent for_client = Return access_token ->
  exists warnings s',
    PersonalAssistant__init__ model url silent for_client s
    = (Return ({| ollama_url := url; ollama_model := model;
                  m365 := {| token := py_str access_token |} |}, warnings), s') /\
    conversation_history s' = [] /\
    sent s' = sent s ++ [tags_request url] /\
    (warnings = [] <->
     exists resp, net (sent s) (tags_request url) = inr resp /\
                  status_code resp = 200).
Proof.
  intros Ha.
  unfold PersonalAssistant__init__, M365Client__init__, mbind, lift, set_history,
         try_except, requests, ret.
  rewrite Ha. cbn [rbind sent].
  destruct (net (sent s) (tags_request url)) as [msg|resp].
  { do 2 eexists. split; [reflexivity|]. repeat split; try discriminate.
    intros (r & [=] & _). }
  destruct (status_code resp =? 200) eqn:Hst; cbn [negb];
    do 2 eexists; (split; [reflexivity|]); repeat split; try discriminate.
  - apply Z.eqb_eq in Hst. eauto.
  - apply Z.eqb_neq in Hst. intros (r & [= <-] & H). contradiction.
Qed.

(** X23: [_authenticate] falls back to the client-credential flow only when
    the silent acquisition returns nothing.  A silent result that is there
    but holds no ["access_token"] fails the authentication whatever the
    fallback would give; with no silent result the token of the fallback is
    the one kept. *)
Theorem authenticate_fallback :
  (forall d for_client,
     d <> [] -> Dict.mem d "access_token" = false ->
     _authenticate (JDict d) for_client
     = Raise (mk_exn PlainException
                ("Authentication failed: "
                   ++ py_str (argument d "error_description" JNull)))) /\
  (forall silent d access_token,
     py_truthy silent = false ->
     Dict.get d "access_token" = Some access_token ->
     _authenticate silent (JDict d) = Return access_token).
Proof.
  split.
  - intros d for_client Hd Hm. unfold _authenticate.
    destruct d as [|kv d]; [contradiction|].
    cbn [py_truthy negb py_contains rbind]. rewrite Hm. reflexivity.
  - intros silent d tok Hs Hg. unfold _authenticate. rewrite Hs.
    cbn [negb py_contains rbind]. unfold Dict.mem. rewrite Hg.
    cbn [py_getitem]. now rewrite Hg.
Qed.

Lemma main_step_sent_grows self line t :
  exists tail, sent (snd (main_step self line t)) = sent t ++ tail.
Proof.
  unfold main_step.
  destruct (existsb _ _); [exists []; cbn; now rewrite app_nil_r|].
  destruct (String.eqb (Str.lower (Str.strip line)) "clear");
    [exists []; cbn; now rewrite app_nil_r|].
  destruct (String.eqb (Str.strip line) "");
    [exists []; cbn; now rewrite app_nil_r|].
  destruct (process_request self (Str.strip line) t) as [[r|e] t1] eqn:Hp;
    destruct (turn_sends _ _ _ Hp) as [r1 Hr1]; eexists; exact Hr1.
Qed.

Lemma main_round_sent_grows self input t :
  exists tail, sent (snd (main_round self input t)) = sent t ++ tail.
Proof.
  destruct input as [line|]; cbn [main_round].
  - apply main_step_sent_grows.
  - exists []. cbn. now rewrite app_nil_r.
Qed.

Lemma main_loop_sent_grows self lines t :
  exists tail, sent (snd (main_loop self lines t)) = sent t ++ tail.
Proof.
  revert t. induction lines as [|l lines IH]; intros t.
  - exists []. cbn. now rewrite app_nil_r.
  - cbn [main_loop].
    destruct (main_round_sent_grows self l t) as [tail1 H1].
    destruct (main_round self l t) as [[[|] out] t1]; cbn [snd] in *.
    + exists tail1. exact H1.
    + destruct (IH t1) as [tail2 H2].
      destruct (main_loop self lines t1) as [outs t2]. cbn [snd] in *.
      exists (tail1 ++ tail2). now rewrite H2, H1, app_assoc.
Qed.

Lemma constructor_state model url silent for_client s access_token :
  _authenticate silent for_client = Return access_token ->
  exists warnings s1,
    PersonalAssistant__init__ model url silent for_client s
    = (Return ({| ollama_url := url; ollama_model := model;
                  m365 := {| token := py_str access_token |} |}, warnings), s1)
    /\ conversation_history s1 = []
    /\ sent s1 = sent s ++ [tags_request url].
Proof.
  intros Ha.
  unfold PersonalAssistant__init__, M365Client__init__, mbind, lift, set_history,
         try_except, requests, ret.
  rewrite Ha. cbn [rbind sent].
  destruct (net (sent s) (tags_request url)) as [msg|resp];
    [|destruct (status_code resp =? 200)];
    do 2 eexists; (split; [reflexivity|]); split; reflexivity.
Qed.

(** X24: a session starts on an empty history.  With the credentials set
    and a token acquired, the first line that is a request makes the second
    request of the session, after the connection test: the chat request
    with the system message and that line only, whatever history the state
    held before. *)
Theorem session_starts_fresh
    getenv model url silent for_client line rest s access_token :
  missing_vars getenv = [] ->
  _authenticate silent for_client = Return access_token ->
  ~ is_exit line -> ~ is_clear line -> ~ is_blank line ->
  exists more,
    sent (snd (main getenv model url silent for_client (Typed line :: rest) s))
    = sent s ++ tags_request url
        :: chat_request
             {| ollama_url := url; ollama_model := model;
                m365 := {| token := py_str access_token |} |}
             (JList [system_message; user_message (Str.strip line)])
        :: more.
Proof.
  intros Hm Ha Hne Hnc Hnb. unfold main. rewrite Hm.
  destruct (constructor_state model url _ _ s Ha) as (warnings & s1 & -> & Hh1 & Hs1).
  cbn [main_loop main_round]. unfold main_step.
  destruct (existsb _ _) eqn:E; [apply exit_word_iff in E; contradiction|].
  destruct (String.eqb (Str.lower (Str.strip line)) "clear") eqn:Ec;
    [apply clear_word_iff in Ec; contradiction|].
  destruct (String.eqb (Str.strip line) "") eqn:Eb;
    [apply blank_iff in Eb; contradiction|].
  destruct (process_request _ (Str.strip line) s1) as [[r|e] s2] eqn:Hp;
    destruct (turn_sends _ _ _ Hp) as [r1 Hr1];
    match goal with |- context [main_loop ?a rest s2] =>
      destruct (main_loop_sent_grows a rest s2) as [tail Ht];
      destruct (main_loop a rest s2) as [o t']
    end;
    cbn [snd] in *; rewrite Ht, Hr1, Hs1, Hh1, <- !app_assoc; cbn [app];
    eexists; reflexivity.
Qed.

Lemma substring_all s : substring 0 (String.length s) s = s.
Proof. induction s as [|c s IH]; cbn; [reflexivity | now rewrite IH]. Qed.

Lemma before_without_separator sep s :
  sep <> "" -> Str.contains s sep = false -> Str.before sep s = s.
Proof.
  intros Hsep. induction s as [|c s IH]; cbn [Str.contains Str.before].
  - destruct sep; [contradiction | reflexivity].
  - intros H. apply orb_false_elim in H as [H1 H2]. rewrite H1.
    now rewrite IH.
Qed.

(** X25: the two filters [get_emails] knows.  ["unread"] asks the server for
    [isRead eq false]; ["from:"] followed by an address asks for that
    address, trimmed and put between quotes as it is. *)
Theorem recognised_email_filters limit :
  emails_params limit (JStr "unread")
  = Return [("$top", limit); ("$orderby", JStr "receivedDateTime DESC");
            ("$filter", JStr "isRead eq false")] /\
  (forall address,
     Str.contains address "from:" = false ->
     emails_params limit (JStr ("from:" ++ address))
     = Return [("$top", limit); ("$orderby", JStr "receivedDateTime DESC");
               ("$filter",
                JStr ("from/emailAddress/address eq '" ++ Str.strip address ++ "'"))]).
Proof.
  split; [reflexivity|].
  intros address H. unfold emails_params.
  cbn [py_truthy py_eq_str py_startswith rbind negb append String.eqb
       Ascii.eqb Bool.eqb Str.startswith String.prefix andb].
  replace (Str.drop 5 (String "f" (String "r" (String "o" (String "m"
             (String ":" address)))))) with address.
  - rewrite before_without_separator by (discriminate || exact H).
    destruct address; reflexivity.
  - unfold Str.drop. cbn [String.length Nat.sub substring].
    now rewrite ?Nat.sub_0_r, substring_all.
Qed.

(** X26: an answer 200 whose body has no ["value"] is an empty listing, not
    an error: [get_emails] returns a count of 0 and no email, and the
    listing of the tasks of a plan a count of 0 and no task. *)
Theorem listing_without_value self limit filter_str plan_id s resp fields :
  body resp = Some (JDict fields) ->
  status_code resp = 200 ->
  Dict.get fields "value" = None ->
  (forall params,
     emails_params limit filter_str = Return params ->
     net (sent s) (emails_request self params) = inr resp ->
     fst (get_emails self limit filter_str s)
     = Return (JDict [("count", JInt 0); ("emails", JList [])])) /\
  (net (sent s) (tasks_request self plan_id) = inr resp ->
   fst (tasks_of_plan self plan_id filter_str s)
   = Return (JDict [("count", JInt 0); ("plan_id", plan_id); ("tasks", JList [])])).
Proof.
  intros Hb Hst Hv. split.
  - intros params Hp Hn.
    unfold get_emails, mbind, enter, lift, ret, requests. rewrite Hp.
    cbn [sent]. rewrite Hn, Hst. cbn [Z.eqb Pos.eqb].
    unfold response_json. rewrite Hb. cbn [rbind py_get]. rewrite Hv.
    reflexivity.
  - intros Hn.
    unfold tasks_of_plan, mbind, lift, ret, requests.
    rewrite Hn, Hst. cbn [Z.eqb Pos.eqb].
    unfold response_json. rewrite Hb. cbn [rbind py_get]. rewrite Hv.
    destruct (py_eq_str filter_str "incomplete"); reflexivity.
Qed.
End Program.

(** ** The theorems at work on the test doubles *)

(** The table decoder only yields objects. *)
Lemma documents_are_objects t v :
  Str.startswith t "{" = true -> loads0 t = Some v -> exists d, v = JDict d.
Proof.
  intros _. unfold loads0, table_loads, documents. cbn [Dict.get].
  repeat match goal with |- context [if ?b then _ else _] => destruct b end;
    intros [= <-]; eauto.
Qed.

(** C1 at work: a greeting is no directive and is answered as plain text. *)
Lemma tool_call_classification_witness :
  process_request loads0 dumps_stub repr_stub net_hello assistant0 "Hi" fresh
  = (Return (JStr "Hello!"),
     push (message "assistant" (JStr "Hello!"))
          (snd (first_completion net_hello assistant0 "Hi" fresh))).
Proof.
  refine (proj2 (proj2 (@tool_call_classification loads0 dumps_stub repr_stub
                          net_hello documents_are_objects "Hello!"))
            assistant0 "Hi" fresh _ _ _).
  - reflexivity.
  - left. reflexivity.
Defined.

(** C8 at work: an object without a ["tool"] key is plain text. *)
Lemma plain_text_turn_witness :
  exists s2,
    process_request loads0 dumps_stub repr_stub net_note assistant0 "Hi" fresh
    = (Return (JStr note_text), s2) /\
    conversation_history s2
    = [user_message "Hi"; message "assistant" (JStr note_text)].
Proof.
  refine (@plain_text_turn loads0 dumps_stub repr_stub net_note
            assistant0 "Hi" fresh note_text _ _ _).
  - reflexivity.
  - right. exists [("note", JInt 1)]. split; reflexivity.
Defined.

(** C10 at work: the completion service answers 503. *)
Lemma failed_completion_keeps_user_message_witness :
  exists s1,
    process_request loads0 dumps_stub repr_stub net_unavailable assistant0 "Hi" fresh
    = (Raise (mk_exn PlainException "Ollama API error: 503"), s1) /\
    conversation_history s1 = [user_message "Hi"].
Proof.
  destruct (@failed_completion_keeps_user_message loads0 dumps_stub repr_stub
              net_unavailable assistant0 "Hi" fresh) as [Hturn Hstatus].
  destruct (Hstatus (mk_response 503 None) eq_refl) as [s1 H1].
  - discriminate.
  - exists s1. exact (Hturn _ _ H1).
Defined.

(** C2 at work: a [get_emails] directive, an empty inbox, a summary. *)
Lemma supported_tool_turn_witness :
  exists s4,
    process_request loads0 dumps_stub repr_stub net_emails assistant0
                    "Any mail?" fresh
    = (Return (JStr "Your inbox is empty."), s4) /\
    conversation_history s4
    = [JDict [("role", JStr "user"); ("content", JStr "Any mail?")];
       JDict [("role", JStr "assistant");
              ("content", JStr "[Used tool: get_emails]")];
       JDict [("role", JStr "user");
              ("content",
               JStr ("Tool result: "
                     ++ dumps_stub (JDict [("count", JInt 0); ("emails", JList [])])
                     ++ Str.nl ++ Str.nl
                     ++ "Please summarize this information in a clear, friendly way for the user."))];
       JDict [("role", JStr "assistant");
              ("content", JStr "Your inbox is empty.")]] /\
    api_calls s4 = [Call_get_emails (JInt 5) JNull].
Proof.
  destruct (@supported_tool_turn loads0 dumps_stub repr_stub net_emails
              assistant0 "Any mail?" fresh emails_directive
              [("tool", JStr "get_emails"); ("parameters", JDict [("limit", JInt 5)])]
              "get_emails" (Call_get_emails (JInt 5) JNull)
              (snd (first_completion net_emails assistant0 "Any mail?" fresh))
              eq_refl eq_refl eq_refl eq_refl eq_refl)
    as (tool_result & s2 & Hcall & _ & Hturn).
  injection Hcall as <- <-.
  exact (Hturn (JStr "Your inbox is empty.") _ eq_refl).
Defined.

(** C4 at work: the directive names the tool ["foo"]. *)
Lemma unknown_tool_turn_witness :
  let err := JDict [("error", JStr "Unknown function: foo")] in
  let posted (h : list json) :=
    {| req_method := POST;
       req_url := (ollama_url assistant0 ++ "/api/chat")%string;
       req_headers := None;
       req_params := None;
       req_json :=
         Some (JDict
                 [("model", JStr (ollama_model assistant0));
                  ("messages",
                   JList (JDict [("role", JStr "system");
                                 ("content", JStr _create_system_prompt)] :: h));
                  ("stream", JBool false);
                  ("options", JDict [("temperature", JFloat 0.7%float)])]) |} in
  let h1 := [JDict [("role", JStr "user"); ("content", JStr "Do it")]] in
  let h2 :=
    (h1 ++ [JDict [("role", JStr "assistant");
                   ("content", JStr "[Used tool: foo]")];
            JDict [("role", JStr "user");
                   ("content",
                    JStr ("Tool result: " ++ dumps_stub err
                          ++ Str.nl ++ Str.nl
                          ++ "Please summarize this information in a clear, friendly way for the user."))]])%list in
  execute_tool repr_stub net_foo assistant0 (JStr "foo") (JList []) fresh
  = (Return err, fresh) /\
  exists res s2 tail,
    process_request loads0 dumps_stub repr_stub net_foo assistant0 "Do it" fresh
    = (res, s2) /\
    sent s2 = [posted h1; posted h2] /\
    conversation_history s2 = (h2 ++ tail)%list /\
    res = Return (JStr "I cannot do that.") /\
    tail = [JDict [("role", JStr "assistant");
                   ("content", JStr "I cannot do that.")]].
Proof.
  intros err posted h1 h2.
  destruct (@unknown_tool_turn loads0 dumps_stub repr_stub net_foo assistant0
              "foo" eq_refl) as [Hexec Hturn].
  split; [apply Hexec|].
  destruct (Hturn "Do it" fresh foo_directive [("tool", JStr "foo")]
              (snd (first_completion net_foo assistant0 "Do it" fresh))
              eq_refl eq_refl eq_refl eq_refl)
    as (res & s2 & tail & Hrun & Hsent & Hhist & Hfinal).
  exists res, s2, tail. split; [exact Hrun|]. split; [exact Hsent|].
  split; [exact Hhist|].
  exact (Hfinal (JStr "I cannot do that.") _ eq_refl).
Defined.

(** C9 at work, on the turn of [supported_tool_turn_witness]: the requests of
    that turn and its messages. *)
Lemma completion_calls_carry_history_witness :
  let s' :=
    snd (process_request loads0 dumps_stub repr_stub net_emails assistant0
                         "Any mail?" fresh) in
  let posted (h : list json) :=
    {| req_method := POST;
       req_url := (ollama_url assistant0 ++ "/api/chat")%string;
       req_headers := None;
       req_params := None;
       req_json :=
         Some (JDict
                 [("model", JStr (ollama_model assistant0));
                  ("messages",
                   JList (JDict [("role", JStr "system");
                                 ("content", JStr _create_system_prompt)] :: h));
                  ("stream", JBool false);
                  ("options", JDict [("temperature", JFloat 0.7%float)])]) |} in
  let answered (tail : list json) :=
    tail = [] \/
    exists c, tail = [JDict [("role", JStr "assistant"); ("content", c)]] in
  let h1 := [JDict [("role", JStr "user"); ("content", JStr "Any mail?")]] in
  ((exists tail,
      sent s' = [posted h1] /\
      conversation_history s' = (h1 ++ tail)%list /\
      answered tail)
   \/
   (exists api tool_name tool_result tail,
      let h2 :=
        (h1 ++ [JDict [("role", JStr "assistant");
                       ("content",
                        JStr ("[Used tool: " ++ py_str repr_stub tool_name ++ "]"))];
                JDict [("role", JStr "user");
                       ("content",
                        JStr ("Tool result: " ++ dumps_stub tool_result
                              ++ Str.nl ++ Str.nl
                              ++ "Please summarize this information in a clear, friendly way for the user."))]])%list in
      sent s' = (posted h1 :: api ++ [posted h2])%list /\
      Forall (fun r =>
                req_headers r
                = Some (JDict [("Authorization",
                                JStr ("Bearer " ++ token (m365 assistant0)));
                               ("Content-Type", JStr "application/json")])) api /\
      conversation_history s' = (h2 ++ tail)%list /\
      answered tail)) /\
  exists added,
    conversation_history s' = added /\
    Forall speaker added.
Proof.
  exact (@completion_calls_carry_history loads0 dumps_stub repr_stub
           net_emails assistant0 "Any mail?" fresh _ _
           (surjective_pairing _)).
Defined.

(** C5 at work: the plan ["P1"] has no bucket. *)
Lemma create_task_without_buckets_witness :
  exists s',
    create_task repr_stub net_no_buckets (m365 assistant0)
                (JStr "P1") (JStr "X") JNull JNull fresh
    = (Return (error_result "No buckets found in plan"), s') /\
    sent s' = [buckets_request repr_stub (m365 assistant0) (JStr "P1")] /\
    req_method (buckets_request repr_stub (m365 assistant0) (JStr "P1")) = GET.
Proof.
  exact (@create_task_without_buckets repr_stub net_no_buckets (m365 assistant0)
           (JStr "P1") (JStr "X") JNull JNull fresh
           (mk_response 200 (Some (JDict [("value", JList [])])))
           (JDict [("value", JList [])])
           eq_refl eq_refl eq_refl eq_refl).
Defined.

(** C6, counterexample: the POST answered 201, the PATCH fails in
    transport; [create_task] raises instead of returning success, and through
    [execute_tool] the failure is the tool result. *)
Lemma description_patch_failure_surfaces :
  fst (create_task repr_stub (net_patch (inl "Connection reset")) (m365 assistant0)
         (JStr "P1") (JStr "X") (JStr "details") JNull fresh)
  = Raise (mk_exn RequestException "Connection reset") /\
  fst (execute_tool repr_stub (net_patch (inl "Connection reset")) assistant0
         (JStr "create_task")
         (JDict [("plan_id", JStr "P1"); ("title", JStr "X");
                 ("description", JStr "details")]) fresh)
  = Return (error_result "Connection reset").
Proof. split; vm_compute; reflexivity. Qed.

(** C6 at work: the description PATCH is answered 500. *)
Lemma description_patch_response_ignored_witness :
  exists s',
    create_task repr_stub (net_patch (inr (mk_response 500 None))) (m365 assistant0)
      (JStr "P1") (JStr "X") (JStr "details") JNull fresh
    = (Return (JDict [("status", JStr "success"); ("task_id", JStr "T1");
                      ("title", JStr "X")]), s') /\
    List.length (sent s') = 3%nat.
Proof.
  destruct (@description_patch_response_ignored repr_stub
              (net_patch (inr (mk_response 500 None))) (m365 assistant0)
              (JStr "P1") (JStr "X") (JStr "details") JNull fresh
              (mk_response 200 (Some (JDict [("value", JList [JDict [("id", JStr "B1")]])])))
              (JDict [("value", JList [JDict [("id", JStr "B1")]])])
              (JList [JDict [("id", JStr "B1")]])
              (JStr "B1")
              (mk_response 201 (Some (JDict [("id", JStr "T1"); ("title", JStr "X")])))
              (JDict [("id", JStr "T1"); ("title", JStr "X")])
              (JStr "T1") (JStr "X")
              (mk_response 500 None)
              eq_refl eq_refl eq_refl eq_refl eq_refl eq_refl eq_refl eq_refl
              eq_refl eq_refl eq_refl eq_refl eq_refl)
    as (s' & Hrun & Hsent).
  exists s'. split; [exact Hrun | now rewrite Hsent].
Defined.

(** C7 at work: no plan id, two plans, three tasks of which one is complete. *)
Lemma get_tasks_plan_and_filter_witness :
  fst (get_tasks repr_stub net_tasks (m365 assistant0) JNull (JStr "incomplete") fresh)
  = Return (JDict [("count", JInt 2); ("plan_id", JStr "P1");
                   ("tasks",
                    JList [JDict [("id", JInt 1); ("title", JStr "write");
                                  ("percent_complete", JInt 50);
                                  ("due_date", JNull); ("priority", JInt 5)];
                           JDict [("id", JInt 3); ("title", JStr "plan");
                                  ("percent_complete", JInt 0);
                                  ("due_date", JNull); ("priority", JInt 5)]])]).
Proof.
  destruct (@get_tasks_plan_and_filter repr_stub net_tasks (m365 assistant0)
              (JStr "incomplete") fresh) as (Hfirst & _ & _ & _).
  rewrite (Hfirst JNull
             (mk_response 200
                (Some (JDict [("value", JList [JDict [("id", JStr "P1")];
                                               JDict [("id", JStr "P2")]])])))
             (JDict [("value", JList [JDict [("id", JStr "P1")];
                                      JDict [("id", JStr "P2")]])])
             (JDict [("id", JStr "P1")]) [JDict [("id", JStr "P2")]] (JStr "P1")
             eq_refl eq_refl eq_refl eq_refl eq_refl eq_refl).
  match goal with |- fst (tasks_of_plan _ _ _ _ _ ?s1) = _ =>
    destruct (@get_tasks_plan_and_filter repr_stub net_tasks (m365 assistant0)
                (JStr "incomplete") s1) as (_ & _ & _ & Hfilter)
  end.
  destruct (Hfilter (JStr "P1")) as (_ & r & s' & Hrun & _ & Hkept).
  rewrite Hrun. cbn [fst].
  rewrite (Hkept
             (mk_response 200
                (Some (JDict [("value", JList [task 1 "write" 50; task 2 "ship" 100;
                                               task 3 "plan" 0])])))
             (JDict [("value", JList [task 1 "write" 50; task 2 "ship" 100;
                                      task 3 "plan" 0])])
             [task 1 "write" 50; task 2 "ship" 100; task 3 "plan" 0]
             eq_refl eq_refl eq_refl eq_refl eq_refl).
  - reflexivity.
  - repeat constructor; do 2 eexists; split; reflexivity.
Defined.

(** C3, counterexample: the transport fails; [get_emails] raises. *)
Lemma transport_failure_raises :
  fst (get_emails net_down (m365 assistant0) (JInt 10) JNull fresh)
  = Raise (mk_exn RequestException "Connection refused") /\
  ~ (exists v, fst (get_emails net_down (m365 assistant0)
                      (JInt 10) JNull fresh) = Return v).
Proof.
  split; [vm_compute; reflexivity|].
  intros [v H]. vm_compute in H. discriminate.
Qed.

(** C3 at work: a 503 on the mail listing, and a transport failure seen
    through [execute_tool]. *)
Lemma remote_failures_witness :
  (exists msg,
     fst (invoke repr_stub net_unavailable (m365 assistant0)
            (Call_get_emails (JInt 10) JNull) fresh)
     = Return (error_result msg)) /\
  exists s',
    execute_tool repr_stub net_down assistant0 (JStr "get_emails") (JDict []) fresh
    = (Return (error_result "Connection refused"), s').
Proof.
  split.
  - destruct (@remote_failures repr_stub net_unavailable assistant0)
      as (Htrace & _ & _).
    destruct (Htrace (Call_get_emails (JInt 10) JNull) fresh _ _
                (surjective_pairing _)) as (new & Hsent & Hstop).
    pose proof (Hstop [] (emails_request (m365 assistant0)
                            [("$top", JInt 10);
                             ("$orderby", JStr "receivedDateTime DESC")])
                  [] (eq_sym Hsent)) as H.
    exact (proj2 (H 200 eq_refl ltac:(discriminate))).
  - destruct (@remote_failures repr_stub net_down assistant0)
      as (_ & _ & Hexec).
    eexists.
    exact (Hexec "get_emails" (JDict []) (Call_get_emails (JInt 10) JNull)
             fresh _ _ eq_refl eq_refl).
Defined.

(** ** The further properties at work *)

(** The table decoder reads a text as it reads the text trimmed. *)
Lemma documents_ignore_whitespace t v :
  loads0 t = Some v -> loads0 (Str.strip t) = Some v.
Proof.
  unfold loads0, table_loads, documents. cbn [Dict.get].
  destruct (String.eqb emails_directive t) eqn:E1.
  { apply String.eqb_eq in E1. subst t. intros H. exact H. }
  destruct (String.eqb foo_directive t) eqn:E2.
  { apply String.eqb_eq in E2. subst t. intros H. exact H. }
  destruct (String.eqb note_text t) eqn:E3; [|discriminate].
  apply String.eqb_eq in E3. subst t. intros H. exact H.
Qed.

(** X1 at work: the filter ["important"]. *)
Lemma unknown_email_filter_ignored_witness :
  fst (get_emails net_inbox (m365 assistant0) (JInt 5) (JStr "important") fresh)
  = fst (get_emails net_inbox (m365 assistant0) (JInt 5) JNull fresh) /\
  sent (snd (get_emails net_inbox (m365 assistant0) (JInt 5) (JStr "important") fresh))
  = sent (snd (get_emails net_inbox (m365 assistant0) (JInt 5) JNull fresh)).
Proof.
  apply unknown_email_filter_ignored; [discriminate | reflexivity].
Defined.

(** X2 at work: the filter is the number 1. *)
Lemma email_filter_not_text_witness :
  exists s',
    get_emails net_inbox (m365 assistant0) (JInt 5) (JInt 1) fresh
    = (Raise (mk_exn AttributeError "'int' object has no attribute 'startswith'"),
       s') /\
    sent s' = sent fresh.
Proof.
  apply (@email_filter_not_text net_inbox (m365 assistant0) (JInt 5) (JInt 1) fresh);
    [reflexivity | discriminate].
Defined.

(** X3 at work: an inbox of two mails. *)
Lemma get_emails_result_shape_witness :
  exists v,
    fst (get_emails net_inbox (m365 assistant0) (JInt 5) JNull fresh) = Return v /\
    ((exists msg, v = error_result msg) \/
     (exists summaries,
        v = JDict [("count", JInt (Z.of_nat (List.length summaries)));
                   ("emails", JList summaries)] /\
        Forall is_email_summary summaries)).
Proof.
  eexists. split; [reflexivity|].
  exact (@get_emails_result_shape net_inbox (m365 assistant0) (JInt 5) JNull
           fresh _ _ eq_refl).
Defined.

(** X4 at work: a task created with its description. *)
Lemma request_methods_witness :
  exists new rest,
    sent (snd (invoke repr_stub (net_patch (inr (mk_response 204 None)))
                 (m365 assistant0)
                 (Call_create_task (JStr "P1") (JStr "X") (JStr "details") JNull)
                 fresh))
    = (sent fresh ++ new)%list /\
    [GET; POST; PATCH] = (map req_method new ++ rest)%list /\
    (forall to subject body,
       Call_create_task (JStr "P1") (JStr "X") (JStr "details") JNull
       = Call_send_email to subject body -> rest = []).
Proof.
  exact (@request_methods repr_stub (net_patch (inr (mk_response 204 None)))
           (m365 assistant0)
           (Call_create_task (JStr "P1") (JStr "X") (JStr "details") JNull)
           fresh _ _ (surjective_pairing _)).
Defined.

(** X5 at work: the mail service answers 200, not 202. *)
Lemma send_email_success_iff_202_witness :
  fst (send_email repr_stub (net_sent 200) (m365 assistant0)
         (JStr "bob@example.com") (JStr "Hi") (JStr "Hello")
         fresh)
  <> Return (JDict [("status", JStr "success");
                    ("message", JStr "Email sent to bob@example.com")]).
Proof.
  destruct (@send_email_success_iff_202 repr_stub (net_sent 200) (m365 assistant0)
              (JStr "bob@example.com") (JStr "Hi") (JStr "Hello") fresh _ _
              (surjective_pairing _)) as (_ & Hiff & _).
  intros H. destruct (proj1 Hiff H) as (resp & Hn & Hst).
  injection Hn as <-. discriminate Hst.
Defined.

(** X6 at work: the filter ["due_soon"]. *)
Lemma other_task_filter_ignored_witness :
  fst (get_tasks repr_stub net_tasks (m365 assistant0) JNull (JStr "due_soon") fresh)
  = fst (get_tasks repr_stub net_tasks (m365 assistant0) JNull JNull fresh) /\
  sent (snd (get_tasks repr_stub net_tasks (m365 assistant0) JNull (JStr "due_soon")
               fresh))
  = sent (snd (get_tasks repr_stub net_tasks (m365 assistant0) JNull JNull fresh)).
Proof.
  apply other_task_filter_ignored. reflexivity.
Defined.

(** X7 at work: one task of two is complete. *)
Lemma incomplete_sound_witness :
  Forall has_percent [task 1 "write" 50; task 2 "ship" 100] /\
  [task 1 "write" 50] = filter below_100 [task 1 "write" 50; task 2 "ship" 100] /\
  (List.length [task 1 "write" 50]
   <= List.length [task 1 "write" 50; task 2 "ship" 100])%nat /\
  incomplete [task 1 "write" 50] = Return [task 1 "write" 50].
Proof.
  exact (@incomplete_sound [task 1 "write" 50; task 2 "ship" 100]
           [task 1 "write" 50] eq_refl).
Defined.

(** X8 at work: the tasks of the first plan. *)
Lemma get_tasks_result_shape_witness :
  exists v,
    fst (get_tasks repr_stub net_tasks (m365 assistant0) JNull JNull fresh)
    = Return v /\
    ((exists msg, v = error_result msg) \/
     (exists used summaries,
        v = JDict [("count", JInt (Z.of_nat (List.length summaries)));
                   ("plan_id", used); ("tasks", JList summaries)] /\
        Forall is_task_summary summaries)).
Proof.
  eexists. split; [reflexivity|].
  exact (@get_tasks_result_shape repr_stub net_tasks (m365 assistant0) JNull JNull
           fresh _ _ eq_refl).
Defined.

(** X9 at work: a task created without a description. *)
Lemma create_task_without_description_witness :
  exists s',
    create_task repr_stub (net_created (JDict [("id", JStr "T1"); ("title", JStr "X")]))
      (m365 assistant0) (JStr "P1") (JStr "X") JNull JNull fresh
    = (Return (JDict [("status", JStr "success"); ("task_id", JStr "T1");
                      ("title", JStr "X")]), s') /\
    List.length (sent s') = 2%nat.
Proof.
  destruct (proj2 (@create_task_without_description repr_stub
                     (net_created (JDict [("id", JStr "T1"); ("title", JStr "X")]))
                     (m365 assistant0) (JStr "P1") (JStr "X") JNull JNull fresh
                     eq_refl)
              (mk_response 200 (Some (JDict [("value", JList [JDict [("id", JStr "B1")]])])))
              (JDict [("value", JList [JDict [("id", JStr "B1")]])])
              (JList [JDict [("id", JStr "B1")]])
              (JStr "B1")
              (mk_response 201 (Some (JDict [("id", JStr "T1"); ("title", JStr "X")])))
              (JDict [("id", JStr "T1"); ("title", JStr "X")])
              (JStr "T1") (JStr "X")
              eq_refl eq_refl eq_refl eq_refl eq_refl eq_refl eq_refl eq_refl
              eq_refl eq_refl eq_refl)
    as (s' & Hrun & Hsent).
  exists s'. split; [exact Hrun | now rewrite Hsent].
Defined.

(** X10 at work: the answer 201 holds a title but no id. *)
Lemma created_task_without_id_witness :
  exists s',
    create_task repr_stub (net_created (JDict [("title", JStr "X")]))
      (m365 assistant0) (JStr "P1") (JStr "X") (JStr "details") JNull fresh
    = (Raise (mk_exn KeyError "'id'"), s') /\
    List.length (sent s') = 2%nat.
Proof.
  destruct (@created_task_without_id repr_stub
              (net_created (JDict [("title", JStr "X")]))
              (m365 assistant0) (JStr "P1") (JStr "X") (JStr "details") JNull fresh
              (mk_response 200 (Some (JDict [("value", JList [JDict [("id", JStr "B1")]])])))
              (JDict [("value", JList [JDict [("id", JStr "B1")]])])
              (JList [JDict [("id", JStr "B1")]])
              (JStr "B1")
              (mk_response 201 (Some (JDict [("title", JStr "X")])))
              [("title", JStr "X")]
              eq_refl eq_refl eq_refl eq_refl eq_refl eq_refl eq_refl eq_refl
              eq_refl eq_refl)
    as (s' & Hrun & Hsent).
  exists s'. split; [exact Hrun | now rewrite Hsent].
Defined.

(** X11 at work: the three requests of a task creation. *)
Lemma execute_tool_bearer_witness :
  exists new,
    sent (snd (execute_tool repr_stub (net_patch (inr (mk_response 204 None)))
                 assistant0 (JStr "create_task")
                 (JDict [("plan_id", JStr "P1"); ("title", JStr "X");
                         ("description", JStr "details")]) fresh))
    = new /\
    Forall (fun r => req_headers r
                     = Some (JDict [("Authorization", JStr "Bearer t0");
                                    ("Content-Type", JStr "application/json")]))
           new.
Proof.
  exact (proj2 (@execute_tool_bearer repr_stub (net_patch (inr (mk_response 204 None)))
                  assistant0 (JStr "create_task")
                  (JDict [("plan_id", JStr "P1"); ("title", JStr "X");
                          ("description", JStr "details")]) fresh _ _
                  (surjective_pairing _))).
Defined.

(** X12 at work: a mail to send without any argument. *)
Lemma execute_tool_bad_arguments_witness :
  exists msg,
    execute_tool repr_stub net_down assistant0 (JStr "send_email") (JDict []) fresh
    = (Return (error_result msg), fresh).
Proof.
  exact (@execute_tool_bad_arguments repr_stub net_down assistant0 "send_email"
           (JDict []) fresh eq_refl eq_refl).
Defined.

(** X13 at work: the completion service answered [null]. *)
Lemma is_tool_call_trimmed_witness :
  _is_tool_call loads0 JNull
  = Raise (mk_exn AttributeError "'NoneType' object has no attribute 'strip'").
Proof.
  apply (proj2 (@is_tool_call_trimmed loads0) JNull). discriminate.
Defined.

(** X14 at work: the completion service answers a greeting. *)
Lemma call_ollama_returns_iff_witness :
  exists s',
    _call_ollama net_hello assistant0 (JList []) fresh
    = (Return (JStr "Hello!"), s').
Proof.
  apply (proj2 (@call_ollama_returns_iff net_hello assistant0 (JList []) fresh
                  (JStr "Hello!"))).
  do 3 eexists. repeat split; reflexivity.
Defined.

(** X15 at work: the completion service answers 503. *)
Lemma turn_fails_only_on_completion_witness :
  let e := mk_exn PlainException "Ollama API error: 503" in
  let s' := snd (process_request loads0 dumps_stub repr_stub net_unavailable
                   assistant0 "Hi" fresh) in
  first_completion net_unavailable assistant0 "Hi" fresh = (Raise e, s') \/
  (exists v, first_completion net_unavailable assistant0 "Hi" fresh = (Return v, s') /\
             (forall t, v <> JStr t) /\ exn_kind e = AttributeError) \/
  (exists t, _call_ollama net_unavailable assistant0
               (JList (system_message :: conversation_history t)) t
             = (Raise e, s') /\
             sent t <> sent fresh).
Proof.
  exact (@turn_fails_only_on_completion loads0 dumps_stub repr_stub
           net_unavailable documents_are_objects documents_ignore_whitespace
           assistant0 "Hi" fresh _ _ eq_refl).
Defined.


(** X17 at work: a line of spaces. *)
Lemma main_step_sends_iff_witness :
  main_step loads0 dumps_stub repr_stub net_hello assistant0 "   " fresh
  = ((Continue, []), fresh).
Proof.
  apply (proj2 (@main_step_sends_iff loads0 dumps_stub repr_stub net_hello
                  assistant0 "   " fresh)).
  reflexivity.
Defined.

(** X18 at work: [Clear], then a greeting, on a history of one message. *)
Lemma clear_then_turn_witness :
  let s := mk_state [user_message "earlier"] [] [] in
  exists rest,
    sent (snd (main_step loads0 dumps_stub repr_stub net_hello assistant0 "Hi"
                 (snd (main_step loads0 dumps_stub repr_stub net_hello assistant0
                         "Clear" s))))
    = (sent s ++ chat_request assistant0
                   (JList [system_message; user_message "Hi"]) :: rest)%list.
Proof.
  intros s.
  refine (proj2 (@clear_then_turn loads0 dumps_stub repr_stub net_hello assistant0
                   "Clear" "Hi" s _ _ _ _)).
  - reflexivity.
  - intros [H|H]; discriminate H.
  - intros H; discriminate H.
  - intros H; discriminate H.
Defined.

(** X20 at work: the client secret is set to the empty text. *)
Lemma main_refuses_missing_variables_witness :
  main loads0 dumps_stub repr_stub net_hello getenv_empty_secret
       "llama3.1" "http://localhost:11434" JNull granted [Typed "Hi"] fresh
  = (([MissingVariables "CLIENT_SECRET"], Return tt), fresh).
Proof.
  refine (proj1 (@main_refuses_missing_variables loads0 dumps_stub repr_stub net_hello
                   getenv_empty_secret "llama3.1" "http://localhost:11434"
                   JNull granted [Typed "Hi"] fresh "CLIENT_SECRET" _ _)).
  - right. left. reflexivity.
  - right. reflexivity.
Defined.

(** X21 at work: the token service refuses the secret. *)
Lemma authentication_failure_is_fatal_witness :
  main loads0 dumps_stub repr_stub net_hello getenv_all
       "llama3.1" "http://localhost:11434" JNull denied [Typed "Hi"] fresh
  = (([Initializing "llama3.1"],
      Raise (mk_exn PlainException "Authentication failed: bad secret")), fresh).
Proof.
  exact (@authentication_failure_is_fatal loads0 dumps_stub repr_stub net_hello
           getenv_all "llama3.1" "http://localhost:11434" JNull denied [Typed "Hi"] fresh
           _ eq_refl eq_refl).
Defined.

(** X22 at work: the completion service cannot be reached. *)
Lemma connection_test_never_fatal_witness :
  exists warnings s',
    PersonalAssistant__init__ repr_stub net_down "llama3.1" "http://localhost:11434"
                              JNull granted fresh
    = (Return (assistant0, warnings), s') /\
    conversation_history s' = [] /\
    sent s' = [tags_request "http://localhost:11434"] /\
    (warnings = [] <->
     exists resp, net_down (sent fresh) (tags_request "http://localhost:11434")
                  = inr resp /\ status_code resp = 200).
Proof.
  exact (@connection_test_never_fatal repr_stub net_down "llama3.1"
           "http://localhost:11434" JNull granted fresh (JStr "t0") eq_refl).
Defined.

(** X23 at work: a silent result that is an error, and none at all. *)
Lemma authenticate_fallback_witness :
  _authenticate repr_stub denied granted
  = Raise (mk_exn PlainException "Authentication failed: bad secret") /\
  _authenticate repr_stub JNull granted = Return (JStr "t0").
Proof.
  destruct (@authenticate_fallback repr_stub) as [Hsilent Hfallback].
  split.
  - apply (Hsilent [("error", JStr "invalid_client");
                    ("error_description", JStr "bad secret")] granted);
      [discriminate | reflexivity].
  - apply (Hfallback JNull [("access_token", JStr "t0")] (JStr "t0"));
      reflexivity.
Defined.

(** X24 at work: a session of one greeting. *)
Lemma session_starts_fresh_witness :
  let net := scripted [inr (mk_response 200 None); chat_answer "Hello!"] in
  let s := mk_state [user_message "earlier"] [] [] in
  exists more,
    sent (snd (main loads0 dumps_stub repr_stub net getenv_all
                 "llama3.1" "http://localhost:11434" JNull granted [Typed "Hi"] s))
    = (sent s ++ tags_request "http://localhost:11434"
         :: chat_request assistant0 (JList [system_message; user_message "Hi"])
         :: more)%list.
Proof.
  intros net s.
  refine (@session_starts_fresh loads0 dumps_stub repr_stub net getenv_all
            "llama3.1" "http://localhost:11434" JNull granted "Hi" [] s
            (JStr "t0") eq_refl eq_refl _ _ _).
  - intros [H|H]; discriminate H.
  - intros H; discriminate H.
  - intros H; discriminate H.
Defined.

(** X25 at work: a sender with a space before the address. *)
Lemma recognised_email_filters_witness :
  emails_params (JInt 5) (JStr "from: bob@example.com")
  = Return [("$top", JInt 5); ("$orderby", JStr "receivedDateTime DESC");
            ("$filter", JStr "from/emailAddress/address eq 'bob@example.com'")].
Proof.
  apply (proj2 (recognised_email_filters (JInt 5)) " bob@example.com").
  reflexivity.
Defined.

(** X26 at work: the answer is an empty object. *)
Lemma listing_without_value_witness :
  fst (get_emails (scripted [ok (JDict [])]) (m365 assistant0) (JInt 5) JNull fresh)
  = Return (JDict [("count", JInt 0); ("emails", JList [])]) /\
  fst (tasks_of_plan repr_stub (scripted [ok (JDict [])]) (m365 assistant0)
         (JStr "P1") JNull fresh)
  = Return (JDict [("count", JInt 0); ("plan_id", JStr "P1"); ("tasks", JList [])]).
Proof.
  destruct (@listing_without_value repr_stub (scripted [ok (JDict [])])
              (m365 assistant0) (JInt 5) JNull (JStr "P1") fresh
              (mk_response 200 (Some (JDict []))) [] eq_refl eq_refl eq_refl)
    as [Hmail Htasks].
  split.
  - exact (Hmail _ eq_refl eq_refl).
  - exact (Htasks eq_refl).
Defined.
